(** * The autonomy kernel of app.py: governance gate, tick orchestrator, audit chain

    The program is embedded as it is written: Python objects as records,
    the module classes as Rocq modules with a [run] (or [read]) function,
    exceptions and the interpreter's state (the Proposal objects that the
    governance module mutates in place, uuid.uuid4, time.time) as an
    exception-and-state monad.  hashlib.sha256, json.dumps and float repr
    are written out so that every hash in the chain can be computed.  The
    interpreter is CPython 3.11 or later with its default settings: the
    conversion of an int to its decimal string raises ValueError past 4300
    digits. *)

From Stdlib Require Import ZArith Bool String Ascii List DecimalString.
From Stdlib Require Import PrimFloat FloatOps SpecFloat FloatAxioms.
From Stdlib Require Import Permutation Sorted.
From stdpp Require Import base option list strings.
Import ListNotations.

#[local] Set Warnings "-inexact-float,-register-all".
#[local] Open Scope bool_scope.
#[local] Open Scope Z_scope.

(** ** What a Python call can do: return, or raise *)

Inductive exn :=
| TypeError
| AttributeError
| OverflowError
| ValueError
| ReferenceError                (* a dangling ref: no Python program has one *)
| StageFailure (msg : string).  (* whatever a plugged-in module raises *)

Inductive Result (A : Type) :=
| Ok (a : A)
| Raise (e : exn).
Arguments Ok {A} a.
Arguments Raise {A} e.

(* the call returned *)
Definition is_ok {A} (r : Result A) : bool :=
  match r with
  | Ok _ => true
  | Raise _ => false
  end.

(** ** hashlib.sha256 (FIPS 180-4), on bytes held as integers below 256 *)

Module Hashlib.

Definition w32 (x : Z) : Z := x mod 2^32.
Definition rotr (n x : Z) : Z := Z.lor (Z.shiftr x n) (w32 (Z.shiftl x (32 - n))).
Definition Ch (x y z : Z) : Z := Z.lxor (Z.land x y) (Z.land (Z.lxor x 0xffffffff) z).
Definition Maj (x y z : Z) : Z := Z.lxor (Z.lxor (Z.land x y) (Z.land x z)) (Z.land y z).
Definition Sigma0 (x : Z) : Z := Z.lxor (Z.lxor (rotr 2 x) (rotr 13 x)) (rotr 22 x).
Definition Sigma1 (x : Z) : Z := Z.lxor (Z.lxor (rotr 6 x) (rotr 11 x)) (rotr 25 x).
Definition sigma0 (x : Z) : Z := Z.lxor (Z.lxor (rotr 7 x) (rotr 18 x)) (Z.shiftr x 3).
Definition sigma1 (x : Z) : Z := Z.lxor (Z.lxor (rotr 17 x) (rotr 19 x)) (Z.shiftr x 10).

(* the primes below 312: the first 64 of them *)
Definition primes : list Z :=
  List.filter (fun n => forallb (fun d => negb (n mod d =? 0) || (n <=? d))
                          (map Z.of_nat (seq 2 16)))
    (map Z.of_nat (seq 2 310)).

(* the largest r below 2^bits with r^3 <= n *)
Fixpoint cube_root (bits : nat) (n r : Z) : Z :=
  match bits with
  | O => r
  | S b => let r' := r + 2 ^ Z.of_nat b in
           cube_root b n (if r' * r' * r' <=? n then r' else r)
  end.

(* the round constants: the first 32 bits of the fractional parts of the cube
   roots of the primes *)
Definition K256 : list Z :=
  Eval vm_compute in map (fun p => w32 (cube_root 40 (p * 2 ^ 96) 0)) primes.

(* the initial hash value: the first 32 bits of the fractional parts of the
   square roots of the first eight primes *)
Definition H256 : list Z :=
  Eval vm_compute in map (fun p => w32 (Z.sqrt (p * 2 ^ 64))) (firstn 8 primes).

(* the message with its padding: a 1 bit, zeros up to 56 mod 64, the bit length on 8 bytes *)
Definition be_bytes (n : nat) (x : Z) : list Z :=
  map (fun i => Z.shiftr x (8 * Z.of_nat i) mod 256) (rev (seq 0 n)).

Definition pad (msg : list Z) : list Z :=
  let len := Z.of_nat (length msg) in
  let zeros := Z.to_nat ((55 - len) mod 64) in
  msg ++ [0x80] ++ repeat 0 zeros ++ be_bytes 8 (8 * len).

Fixpoint be_words (fuel : nat) (bs : list Z) : list Z :=
  match fuel, bs with
  | S fuel', b0 :: b1 :: b2 :: b3 :: rest =>
      (((b0 * 256 + b1) * 256 + b2) * 256 + b3) :: be_words fuel' rest
  | _, _ => []
  end.

(* the message schedule, newest word first *)
Fixpoint schedule (n : nat) (ws : list Z) : list Z :=
  match n with
  | O => ws
  | S n' =>
      let w := w32 (sigma1 (nth 1 ws 0) + nth 6 ws 0 + sigma0 (nth 14 ws 0) + nth 15 ws 0) in
      schedule n' (w :: ws)
  end.

Definition round (st : list Z) (kw : Z * Z) : list Z :=
  match st with
  | [a; b; c; d; e; f; g; h] =>
      let t1 := h + Sigma1 e + Ch e f g + fst kw + snd kw in
      let t2 := Sigma0 a + Maj a b c in
      [w32 (t1 + t2); a; b; c; w32 (d + t1); e; f; g]
  | _ => st
  end.

Definition compress (hs : list Z) (block : list Z) : list Z :=
  let ws := rev (schedule 48 (rev block)) in
  let st := fold_left round (combine K256 ws) hs in
  map (fun p => w32 (fst p + snd p)) (combine hs st).

Fixpoint blocks (fuel : nat) (ws : list Z) (hs : list Z) : list Z :=
  match fuel with
  | O => hs
  | S fuel' =>
      match ws with
      | [] => hs
      | _ => blocks fuel' (skipn 16 ws) (compress hs (firstn 16 ws))
      end
  end.

Definition digest_words (msg : list Z) : list Z :=
  let bs := pad msg in
  let ws := be_words (length bs) bs in
  blocks (length ws) ws H256.

Definition hex_digit (d : Z) : ascii :=
  ascii_of_nat (Z.to_nat (if d <? 10 then 48 + d else 87 + d)).

Definition hex_of (digits : nat) (x : Z) : string :=
  string_of_list_ascii
    (map (fun i => hex_digit (Z.shiftr x (4 * Z.of_nat i) mod 16)) (rev (seq 0 digits))).

Definition bytes_of (s : string) : list Z :=
  map (fun c => Z.of_nat (nat_of_ascii c)) (list_ascii_of_string s).

(* hashlib.sha256(bytes).hexdigest() *)
Definition sha256_hexdigest (s : string) : string :=
  String.concat EmptyString (map (hex_of 8) (digest_words (bytes_of s))).

End Hashlib.

(** ** Python floats: repr, round and int conversion

    A float is an IEEE 754 binary64, as in CPython.  [float_repr] is the
    shortest decimal that reads back as the same float, laid out as repr
    does; [py_round] is round(x, n), which goes through the correctly
    rounded decimal. *)

Module PyFloat.

(* the decimal digits of an int, after its sign *)
Definition decimal (z : Z) : string := NilZero.string_of_int (Z.to_int z).

(* sys.int_info.default_max_str_digits *)
Definition max_str_digits : Z := 4300.

(* 10 ** 4300, the least of the ints with more digits than that *)
Definition int_limit : Z := Eval vm_compute in 10 ^ max_str_digits.

(* str(int), repr(int): a ValueError for an int of more than 4300 digits *)
Definition int_repr (z : Z) : Result string :=
  if Z.abs z <? int_limit then Ok (decimal z) else Raise ValueError.

(* d * 10^k against num / den, all positive *)
Definition cmp_dec (d k num den : Z) : comparison :=
  if 0 <=? k then (d * 10 ^ k * den ?= num) else (d * den ?= num * 10 ^ (- k)).

Definition floor_dec (k num den : Z) : Z :=
  if 0 <=? k then num / (den * 10 ^ k) else (num * 10 ^ (- k)) / den.

(* floor (log10 (num / den)) *)
Definition log10_floor (num den : Z) : Z :=
  let est := ((Z.log2 num - Z.log2 den) * 30103) / 100000 in
  let up x := match cmp_dec 1 (x + 1) num den with Gt => x | _ => x + 1 end in
  let down x := match cmp_dec 1 x num den with Gt => x - 1 | _ => x end in
  down (down (up (up est))).

Fixpoint strip_zeros (fuel : nat) (d k : Z) : Z * Z :=
  match fuel with
  | O => (d, k)
  | S fuel' => if (d mod 10 =? 0) && negb (d =? 0) then strip_zeros fuel' (d / 10) (k + 1) else (d, k)
  end.

Section Shortest.
(* the float m * 2^e; lo and hi bound the reals that round to it, scaled like m4 = 4 m *)
Variables (m e : Z).
Let narrow := (m =? 2 ^ 52) && (-1074 <? e).
Let m4 := 4 * m.
Let lo4 := if narrow then m4 - 1 else m4 - 2.
Let hi4 := m4 + 2.
Let den := if 0 <=? e - 2 then 1 else 2 ^ (2 - e).
Let scale x := if 0 <=? e - 2 then x * 2 ^ (e - 2) else x.
Let closed := Z.even m.

Definition inside (d k : Z) : bool :=
  match cmp_dec d k (scale lo4) den, cmp_dec d k (scale hi4) den with
  | Gt, Lt => true
  | Eq, _ => closed
  | _, Eq => closed
  | _, _ => false
  end.

(* the n-digit decimals just below and above the float *)
Definition candidate (dexp : Z) (n : Z) : option (Z * Z) :=
  let k := dexp - n + 1 in
  let dl := floor_dec k (scale m4) den in
  let dh := dl + 1 in
  match inside dl k, inside dh k with
  | true, false => Some (dl, k)
  | false, true => Some (dh, k)
  | false, false => None
  | true, true =>
      match cmp_dec (2 * dl + 1) k (scale (2 * m4)) den with
      | Gt => Some (dl, k)
      | Lt => Some (dh, k)
      | Eq => Some (if Z.even dl then dl else dh, k)
      end
  end.

Fixpoint search (fuel : nat) (dexp n : Z) : Z * Z :=
  match fuel with
  | O => (0, 0)
  | S fuel' =>
      match candidate dexp n with
      | Some dk => dk
      | None => search fuel' dexp (n + 1)
      end
  end.

Definition shortest : Z * Z :=
  let (d, k) := search 17 (log10_floor (scale m4) (4 * den)) 1 in
  strip_zeros 17 d k.
End Shortest.

Definition zeros (n : Z) : string := string_of_list_ascii (repeat "0"%char (Z.to_nat n)).

Definition exp_repr (x : Z) : string :=
  let a := decimal (Z.abs x) in
  (if x <? 0 then "-" else "+") +:+ (if Z.abs x <? 10 then "0" else EmptyString) +:+ a.

(* the digits d with the decimal point after the first decpt of them *)
Definition format_r (d k : Z) : string :=
  let ds := decimal d in
  let n := Z.of_nat (String.length ds) in
  let decpt := k + n in
  if (decpt <=? -4) || (16 <? decpt) then
    String.substring 0 1 ds
      +:+ (if 1 <? n then "." +:+ String.substring 1 (Z.to_nat (n - 1)) ds else EmptyString)
      +:+ "e" +:+ exp_repr (decpt - 1)
  else if decpt <=? 0 then "0." +:+ zeros (- decpt) +:+ ds
  else if decpt <? n then
    String.substring 0 (Z.to_nat decpt) ds +:+ "." +:+ String.substring (Z.to_nat decpt) (Z.to_nat (n - decpt)) ds
  else ds +:+ zeros (decpt - n) +:+ ".0".

(* repr(float), which str(float) and f-strings use too *)
Definition float_repr (f : float) : string :=
  match Prim2SF f with
  | S754_nan => "nan"
  | S754_infinity s => if s then "-inf" else "inf"
  | S754_zero s => if s then "-0.0" else "0.0"
  | S754_finite s m e =>
      let (d, k) := shortest (Zpos m) e in
      (if s then "-" else EmptyString) +:+ format_r d k
  end.

(* float(int): nearest, ties to even; None for OverflowError *)
Definition float_of_int (z : Z) : option float :=
  match binary_normalize prec emax z 0 false with
  | S754_infinity _ => None
  | sf => Some (SF2Prim sf)
  end.

(* the float nearest num / den (both positive), ties to even *)
Definition float_of_ratio (num den : Z) : float :=
  let s := Z.max 0 (58 + Z.log2 den - Z.log2 num) in
  let q := (num * 2 ^ s) / den in
  let sticky := if (num * 2 ^ s) mod den =? 0 then 0 else 1 in
  SF2Prim (binary_normalize prec emax (2 * q + sticky) (- s - 1) false).

(* round(x, ndigits) for 0 <= ndigits, through the correctly rounded decimal and back *)
Definition py_round (f : float) (ndigits : Z) : float :=
  match Prim2SF f with
  | S754_finite s m e =>
      let num := if 0 <=? e then Zpos m * 2 ^ e else Zpos m in
      let den := if 0 <=? e then 1 else 2 ^ (- e) in
      let p := 10 ^ ndigits in
      let q := (num * p) / den in
      let r := (num * p) mod den in
      let n := match 2 * r ?= den with
               | Lt => q
               | Gt => q + 1
               | Eq => if Z.even q then q else q + 1
               end in
      let a := if n =? 0 then zero else float_of_ratio n p in
      if s then (- a)%float else a
  | _ => f
  end.

End PyFloat.

(** ** json.dumps(data, sort_keys=True, default=str) *)

Module Json.

(* Python values as far as json.dumps tells them apart. A str is held as its
   UTF-8 bytes; PObj is any object json cannot encode, known by its str(). *)
Inductive pyval :=
| PNone
| PBool (b : bool)
| PInt (z : Z)
| PFloat (f : float)
| PStr (s : string)
| PList (l : list pyval)
| PTuple (l : list pyval)
| PDict (items : list (string * pyval))
| PObj (str : string).

Definition pydict := list (string * pyval).

Definition quote : string := String (ascii_of_nat 34) EmptyString.
Definition backslash : string := String (ascii_of_nat 92) EmptyString.

(* the code points of a UTF-8 string; a byte outside a sequence counts for itself *)
Fixpoint code_points (fuel : nat) (bs : list Z) : list Z :=
  match fuel with
  | O => []
  | S fuel' =>
      match bs with
      | [] => []
      | b0 :: r0 =>
          let cont b := (128 <=? b) && (b <? 192) in
          match r0 with
          | b1 :: r1 =>
              if (192 <=? b0) && (b0 <? 224) && cont b1 then
                ((b0 - 192) * 64 + (b1 - 128)) :: code_points fuel' r1
              else
                match r1 with
                | b2 :: r2 =>
                    if (224 <=? b0) && (b0 <? 240) && cont b1 && cont b2 then
                      (((b0 - 224) * 64 + (b1 - 128)) * 64 + (b2 - 128)) :: code_points fuel' r2
                    else
                      match r2 with
                      | b3 :: r3 =>
                          if (240 <=? b0) && (b0 <? 248) && cont b1 && cont b2 && cont b3 then
                            ((((b0 - 240) * 64 + (b1 - 128)) * 64 + (b2 - 128)) * 64 + (b3 - 128))
                              :: code_points fuel' r3
                          else b0 :: code_points fuel' r0
                      | [] => b0 :: code_points fuel' r0
                      end
                | [] => b0 :: code_points fuel' r0
                end
          | [] => [b0]
          end
      end
  end.

Definition u_escape (c : Z) : string := backslash +:+ "u" +:+ Hashlib.hex_of 4 c.

(* json.encoder.py_encode_basestring_ascii, one code point *)
Definition escape_char (c : Z) : string :=
  if c =? 34 then backslash +:+ quote
  else if c =? 92 then backslash +:+ backslash
  else if c =? 10 then backslash +:+ "n"
  else if c =? 13 then backslash +:+ "r"
  else if c =? 9 then backslash +:+ "t"
  else if c =? 12 then backslash +:+ "f"
  else if c =? 8 then backslash +:+ "b"
  else if (32 <=? c) && (c <=? 126) then String (ascii_of_nat (Z.to_nat c)) EmptyString
  else if c <? 65536 then u_escape c
  else
    let n := c - 65536 in
    u_escape (Z.lor 55296 (Z.land (Z.shiftr n 10) 1023)) +:+ u_escape (Z.lor 56320 (Z.land n 1023)).

Definition encode_str (s : string) : string :=
  let bs := Hashlib.bytes_of s in
  quote +:+ String.concat EmptyString (map escape_char (code_points (length bs) bs)) +:+ quote.

(* float.__repr__, except for the three values JSON has no literal for *)
Definition floatstr (f : float) : string :=
  if is_nan f then "NaN"
  else if is_infinity f then (if get_sign f then "-Infinity" else "Infinity")
  else PyFloat.float_repr f.

(* sorted(dct.items()) on distinct str keys: by key, code point order *)
Fixpoint insert_item (kv : string * string) (l : list (string * string)) : list (string * string) :=
  match l with
  | [] => [kv]
  | h :: t => if String.leb (fst kv) (fst h) then kv :: l else h :: insert_item kv t
  end.

Definition sort_items (l : list (string * string)) : list (string * string) :=
  fold_right insert_item [] l.

(* the JSON text of v under sort_keys=True and default=str *)
Fixpoint text (v : pyval) : string :=
  match v with
  | PNone => "null"
  | PBool b => if b then "true" else "false"
  | PInt z => PyFloat.decimal z
  | PFloat f => floatstr f
  | PStr s => encode_str s
  | PList l | PTuple l =>
      "[" +:+ String.concat ", " (map text l) +:+ "]"
  | PDict items =>
      let enc := map (fun kv => (fst kv, text (snd kv))) items in
      "{" +:+ String.concat ", "
               (map (fun kv => encode_str (fst kv) +:+ ": " +:+ snd kv) (sort_items enc)) +:+ "}"
  | PObj str => encode_str str
  end.

(* the encoder meets no int whose repr raises *)
Fixpoint encodable (v : pyval) : bool :=
  match v with
  | PInt z => is_ok (PyFloat.int_repr z)
  | PList l | PTuple l => forallb encodable l
  | PDict items => forallb (fun kv => encodable (snd kv)) items
  | PNone | PBool _ | PFloat _ | PStr _ | PObj _ => true
  end.

(* json.dumps(v, sort_keys=True, default=str): the text, or the ValueError of
   the first int repr that raises; nothing else of these values makes the
   encoder raise, NaN and the infinities being allowed by default *)
Definition dumps (v : pyval) : Result string :=
  if encodable v then Ok (text v) else Raise ValueError.

End Json.

Export Json.

(** ** Helpers of app.py *)

(* def sha256(data): json.dumps(data, sort_keys=True, default=str), encoded as
   UTF-8 (the dump is ASCII already), hashed, as a hex string *)
Definition sha256 (data : pydict) : Result string :=
  match dumps (PDict data) with
  | Ok s => Ok (Hashlib.sha256_hexdigest s)
  | Raise e => Raise e
  end.

(* the hash that sha256 returns when json.dumps returns *)
Definition digest (data : pydict) : string :=
  Hashlib.sha256_hexdigest (text (PDict data)).

(** ** 1. Core data models *)

Definition TickId := Z.

Module RiskLevel.
Inductive t := STABLE | ELEVATED | HIGH | CRITICAL.
Definition name (l : t) : string :=
  match l with
  | STABLE => "STABLE" | ELEVATED => "ELEVATED" | HIGH => "HIGH" | CRITICAL => "CRITICAL"
  end.
End RiskLevel.

Module ProposalStatus.
Inductive t := PENDING | AUTO_APPROVED | REQUIRES_HUMAN | BLOCKED.
Definition eqb (a b : t) : bool :=
  match a, b with
  | PENDING, PENDING | AUTO_APPROVED, AUTO_APPROVED
  | REQUIRES_HUMAN, REQUIRES_HUMAN | BLOCKED, BLOCKED => true
  | _, _ => false
  end.
End ProposalStatus.

Module SensorFrame.
Record t := mk { tick : TickId; ts : float; streams : pydict }.
End SensorFrame.

Module WorldState.
Record t := mk { tick : TickId; ts : float; facts : pydict; health : pydict }.
End WorldState.

Module RiskReport.
Record t := mk {
  tick : TickId; ts : float; score : float; level : RiskLevel.t;
  clarity : float; drivers : pydict; notes : string }.
End RiskReport.

Module Intent.
Record t := mk {
  id : string; kind : string; priority : Z; params : pydict; rationale : string }.
End Intent.

Module Proposal.
Record t := mk {
  id : string; tick : TickId; source_intent : string; action : string;
  bounds : pydict; expected_effect : pydict;
  status : ProposalStatus.t; governance_notes : string }.
(* p.status = s and p.governance_notes = c, on the object *)
Definition set_status (s : ProposalStatus.t) (p : t) : t :=
  mk (id p) (tick p) (source_intent p) (action p) (bounds p) (expected_effect p)
     s (governance_notes p).
Definition set_governance_notes (c : string) (p : t) : t :=
  mk (id p) (tick p) (source_intent p) (action p) (bounds p) (expected_effect p)
     (status p) c.
End Proposal.

Module Decision.
Record t := mk {
  id : string; proposal_id : string; tick : TickId; status : ProposalStatus.t;
  operator : string; comment : string }.
End Decision.

Module ActuationCommand.
Record t := mk { id : string; tick : TickId; channel : string; payload : pydict }.
End ActuationCommand.

Module AuditEntry.
Record t := mk {
  id : string; tick : TickId; ts : float; kind : string; payload : pydict;
  prev_hash : string; hash : string }.
End AuditEntry.

Module GovernanceConfig.
Record t := mk {
  max_auto_risk : float; hard_block_risk : float;
  require_human_for : list string; gate_open : bool }.
(* GovernanceConfig() *)
Definition default : t := mk 40 80 ["RETREAT"; "EMERGENCY"] false.
End GovernanceConfig.

(* a Proposal is passed around by reference: its address in the heap *)
Abbreviation ref := nat (only parsing).

Module TickResult.
Record t := mk {
  tick : TickId; sensor_frame : SensorFrame.t; world : WorldState.t;
  risk : RiskReport.t; intents : list Intent.t; proposals : list ref;
  decisions : list Decision.t; actuation : list ActuationCommand.t;
  audit_entries : list AuditEntry.t }.
End TickResult.

(** ** A call that can raise and change the interpreter's state *)

(* a computation over a state S; the state changes made before a raise stay *)
Definition M (S A : Type) : Type := S -> Result A * S.

#[global] Instance M_ret {S} : MRet (M S) := fun A a s => (Ok a, s).
#[global] Instance M_bind {S} : MBind (M S) := fun A B f m s =>
  match m s with
  | (Ok a, s') => f a s'
  | (Raise e, s') => (Raise e, s')
  end.

Definition raise {S A} (e : exn) : M S A := fun s => (Raise e, s).
Definition gets {S A} (f : S -> A) : M S A := fun s => (Ok (f s), s).
Definition modify {S} (f : S -> S) : M S unit := fun s => (Ok tt, f s).
Definition of_result {S A} (r : Result A) : M S A := fun s => (r, s).

(* for x in xs: ..., collecting what each round appends *)
Fixpoint for_each {S A B} (f : A -> M S (list B)) (xs : list A) : M S (list B) :=
  match xs with
  | [] => mret []
  | x :: rest => ys ← f x; zs ← for_each f rest; mret (ys ++ zs)
  end.

(* The state outside the kernel object: the Proposal objects by address, the
   values uuid.uuid4() and time.time() return call by call, and the state X
   of the plugged-in modules. *)
Record World (X : Type) := mkWorld {
  heap : list Proposal.t;
  uuid_src : nat -> string;
  uuid_n : nat;
  clock : nat -> float;
  clock_n : nat;
  ext : X }.
Arguments mkWorld {X}.
Arguments heap {X}.
Arguments uuid_src {X}.
Arguments uuid_n {X}.
Arguments clock {X}.
Arguments clock_n {X}.
Arguments ext {X}.

Section Runtime.
Context {X : Type}.

Definition with_heap (h : list Proposal.t) (w : World X) : World X :=
  mkWorld h (uuid_src w) (uuid_n w) (clock w) (clock_n w) (ext w).
Definition with_ext {Y : Type} (y : Y) (w : World X) : World Y :=
  mkWorld (heap w) (uuid_src w) (uuid_n w) (clock w) (clock_n w) y.

(* str(uuid.uuid4()) *)
Definition uuid4 : M (World X) string := fun w =>
  (Ok (uuid_src w (uuid_n w)),
   mkWorld (heap w) (uuid_src w) (S (uuid_n w)) (clock w) (clock_n w) (ext w)).

(* time.time() *)
Definition time_time : M (World X) float := fun w =>
  (Ok (clock w (clock_n w)),
   mkWorld (heap w) (uuid_src w) (uuid_n w) (clock w) (S (clock_n w)) (ext w)).

(* Proposal(...): a new object, at a new address *)
Definition alloc (p : Proposal.t) : M (World X) ref := fun w =>
  (Ok (length (heap w)), with_heap (heap w ++ [p]) w).

(* the object behind a reference *)
Definition load (r : ref) : M (World X) Proposal.t := fun w =>
  match heap w !! r with
  | Some p => (Ok p, w)
  | None => (Raise ReferenceError, w)
  end.

(* an attribute assignment on the object behind a reference *)
Definition store (r : ref) (f : Proposal.t -> Proposal.t) : M (World X) unit := fun w =>
  match heap w !! r with
  | Some p => (Ok tt, with_heap (<[r := f p]> (heap w)) w)
  | None => (Raise ReferenceError, w)
  end.
End Runtime.

(* d.get(key, default) on a dict *)
Fixpoint dict_get (key : string) (d : pydict) (default : pyval) : pyval :=
  match d with
  | [] => default
  | (k, v) :: rest => if String.eqb k key then v else dict_get key rest default
  end.

(* v.get(key, default) on whatever v is *)
Definition py_get (v : pyval) (key : string) (default : pyval) : Result pyval :=
  match v with
  | PDict d => Ok (dict_get key d default)
  | _ => Raise AttributeError
  end.

(* a - v for a float a *)
Definition float_sub (a : float) (v : pyval) : Result float :=
  match v with
  | PFloat f => Ok (a - f)%float
  | PInt z =>
      match PyFloat.float_of_int z with
      | Some f => Ok (a - f)%float
      | None => Raise OverflowError
      end
  | PBool b => Ok (a - (if b then 1 else 0))%float
  | _ => Raise TypeError
  end.

(* max(a, b) and min(a, b): the first argument unless the second beats it *)
Definition py_max (a b : float) : float := if PrimFloat.ltb a b then b else a.
Definition py_min (a b : float) : float := if PrimFloat.ltb b a then b else a.

(* x in xs, for a list of str *)
Definition str_in (x : string) (xs : list string) : bool := existsb (String.eqb x) xs.

(** ** 4. Default modules *)

(* random.Random(seed): the values random() returns, call by call *)
Record Rng := mkRng { draws : nat -> float; draw_n : nat }.

Module SyntheticSensorAdapter.
Definition rng_random : M (World Rng) float := fun w =>
  (Ok (draws (ext w) (draw_n (ext w))),
   with_ext (mkRng (draws (ext w)) (S (draw_n (ext w)))) w).

Definition read (tick : TickId) (prev_world : option WorldState.t)
  : M (World Rng) SensorFrame.t :=
  ts ← time_time;
  r1 ← rng_random;
  let base_load := (0.4 + 0.2 * r1)%float in
  r2 ← rng_random;
  let env_stress := (0.3 + 0.3 * r2)%float in
  r3 ← rng_random;
  let comms_ok := (0.7 + 0.3 * r3)%float in
  let streams :=
    [("ops", PDict [("system_load", PFloat base_load);
                    ("env_stress", PFloat env_stress);
                    ("comms_quality", PFloat comms_ok)])] in
  mret (SensorFrame.mk tick ts streams).
End SyntheticSensorAdapter.

Module DefaultPerceptionModule.
Definition run {X} (frame : SensorFrame.t) (prev_world : option WorldState.t)
  : M (World X) WorldState.t :=
  let ops := dict_get "ops" (SensorFrame.streams frame) (PDict []) in
  load_v ← of_result (py_get ops "system_load" (PFloat 0.5));
  compute ← of_result (float_sub 1 load_v);
  stress_v ← of_result (py_get ops "env_stress" (PFloat 0.5));
  environment ← of_result (float_sub 1 stress_v);
  comms ← of_result (py_get ops "comms_quality" (PFloat 0.8));
  let health :=
    [("compute", PFloat (py_max 0 compute));
     ("environment", PFloat (py_max 0 environment));
     ("comms", comms)] in
  let facts := [("raw_ops", ops); ("alerts", PList [])] in
  mret (WorldState.mk (SensorFrame.tick frame) (SensorFrame.ts frame) facts health).
End DefaultPerceptionModule.

Module DefaultRiskModule.
Definition run {X} (world : WorldState.t) : M (World X) RiskReport.t :=
  let h := WorldState.health world in
  compute_r ← of_result (float_sub 1 (dict_get "compute" h (PFloat 0.8)));
  env_r ← of_result (float_sub 1 (dict_get "environment" h (PFloat 0.8)));
  comms_r ← of_result (float_sub 1 (dict_get "comms" h (PFloat 0.8)));
  let score := (100 * (0.35 * compute_r + 0.40 * env_r + 0.25 * comms_r))%float in
  let score := py_max 0 (py_min 100 score) in
  let level :=
    if PrimFloat.ltb score 25 then RiskLevel.STABLE
    else if PrimFloat.ltb score 50 then RiskLevel.ELEVATED
    else if PrimFloat.ltb score 75 then RiskLevel.HIGH
    else RiskLevel.CRITICAL in
  let clarity := py_max 30 (100 - score * 0.6)%float in
  let drivers :=
    [("compute", PFloat (PyFloat.py_round (compute_r * 100) 1));
     ("environment", PFloat (PyFloat.py_round (env_r * 100) 1));
     ("comms", PFloat (PyFloat.py_round (comms_r * 100) 1))] in
  mret (RiskReport.mk (WorldState.tick world) (WorldState.ts world)
          (PyFloat.py_round score 1) level (PyFloat.py_round clarity 1) drivers
          "synthetic risk blend").
End DefaultRiskModule.

Module DefaultPolicyModule.
(* intents.sort(key=lambda i: i.priority, reverse=True): stable, highest first *)
Fixpoint insert_desc (i : Intent.t) (l : list Intent.t) : list Intent.t :=
  match l with
  | [] => [i]
  | h :: t =>
      if Intent.priority h <=? Intent.priority i then i :: l else h :: insert_desc i t
  end.
Definition sort_desc (l : list Intent.t) : list Intent.t := fold_right insert_desc [] l.

Definition run {X} (world : WorldState.t) (risk : RiskReport.t)
  : M (World X) (list Intent.t) :=
  id1 ← uuid4;
  let intents := [Intent.mk id1 "CONTINUE" 10 [] "Baseline keep-going behavior"] in
  intents ←
    match RiskReport.level risk with
    | RiskLevel.HIGH | RiskLevel.CRITICAL =>
        id2 ← uuid4;
        mret (intents ++
                [Intent.mk id2 "SLOW_ROLL" 50 [("rate_multiplier", PFloat 0.5)]
                   ("Risk " +:+ PyFloat.float_repr (RiskReport.score risk)
                      +:+ " ≥ HIGH; slow systems")])
    | _ => mret intents
    end;
  intents ←
    match RiskReport.level risk with
    | RiskLevel.CRITICAL =>
        id3 ← uuid4;
        mret (intents ++
                [Intent.mk id3 "EMERGENCY" 90 [("mode", PStr "HOLD")]
                   "Critical risk; hold until operator review"])
    | _ => mret intents
    end;
  mret (sort_desc intents).
End DefaultPolicyModule.

Module DefaultProposalModule.
Definition run {X} (intents : list Intent.t) (world : WorldState.t) (risk : RiskReport.t)
  : M (World X) (list ref) :=
  for_each (fun intent =>
    let kind := Intent.kind intent in
    let '(action, bounds) :=
      if String.eqb kind "CONTINUE" then
        ("Maintain current profile", [("max_delta", PStr "minimal")])
      else if String.eqb kind "SLOW_ROLL" then
        ("Reduce operational rate",
         [("rate_multiplier", dict_get "rate_multiplier" (Intent.params intent) (PFloat 0.6))])
      else if String.eqb kind "EMERGENCY" then
        ("Enter safe hold", [("hold", PBool true)])
      else ("Custom intent " +:+ kind, []) in
    pid ← uuid4;
    p ← alloc (Proposal.mk pid (WorldState.tick world) kind action bounds
                 [("risk_delta", PInt (-10)); ("clarity_delta", PInt 5)]
                 ProposalStatus.PENDING EmptyString);
    mret [p]) intents.
End DefaultProposalModule.

Module DefaultGovernanceModule.
(* the if / elif chain of the loop body: status and comment *)
Definition gate (p : Proposal.t) (risk : RiskReport.t) (config : GovernanceConfig.t)
  : ProposalStatus.t * string :=
  let score := RiskReport.score risk in
  if PrimFloat.leb (GovernanceConfig.hard_block_risk config) score then
    (ProposalStatus.BLOCKED,
     "Blocked: risk " +:+ PyFloat.float_repr score +:+ " ≥ hard stop")
  else if negb (GovernanceConfig.gate_open config) then
    (ProposalStatus.REQUIRES_HUMAN, "Gate closed; human review required")
  else if PrimFloat.ltb (GovernanceConfig.max_auto_risk config) score
          || str_in (Proposal.source_intent p) (GovernanceConfig.require_human_for config) then
    (ProposalStatus.REQUIRES_HUMAN,
     "Risk " +:+ PyFloat.float_repr score +:+ " or intent " +:+ Proposal.source_intent p
       +:+ " above auto threshold")
  else (ProposalStatus.AUTO_APPROVED, "Within auto-go envelope").

Definition run {X} (proposals : list ref) (world : WorldState.t) (risk : RiskReport.t)
    (config : GovernanceConfig.t) : M (World X) (list Decision.t) :=
  for_each (fun p =>
    obj ← load p;
    let '(status, comment) := gate obj risk config in
    store p (Proposal.set_status status);;
    store p (Proposal.set_governance_notes comment);;
    did ← uuid4;
    mret [Decision.mk did (Proposal.id obj) (Proposal.tick obj) status
            (if ProposalStatus.eqb status ProposalStatus.AUTO_APPROVED
             then "AUTO" else "HUMAN?")
            comment]) proposals.
End DefaultGovernanceModule.

Module DefaultActuationModule.
Definition run {X} (decisions : list Decision.t) (world : WorldState.t)
  : M (World X) (list ActuationCommand.t) :=
  for_each (fun d =>
    if ProposalStatus.eqb (Decision.status d) ProposalStatus.AUTO_APPROVED then
      cid ← uuid4;
      mret [ActuationCommand.mk cid (Decision.tick d) "core"
              [("decision_id", PStr (Decision.id d));
               ("proposal_id", PStr (Decision.proposal_id d));
               ("mode", PStr "EXECUTE")]]
    else mret []) decisions.
End DefaultActuationModule.

(** ** 5. Kernel *)

Module AutonomyKernel.
(* the kernel object: the seven plugged-in modules (their read or run
   method), the governance configuration and the state the kernel owns *)
Record t (X : Type) := mk {
  sensor : TickId -> option WorldState.t -> M (World X) SensorFrame.t;
  perception : SensorFrame.t -> option WorldState.t -> M (World X) WorldState.t;
  risk_module : WorldState.t -> M (World X) RiskReport.t;
  policy_module : WorldState.t -> RiskReport.t -> M (World X) (list Intent.t);
  proposal_module :
    list Intent.t -> WorldState.t -> RiskReport.t -> M (World X) (list ref);
  governance_module :
    list ref -> WorldState.t -> RiskReport.t -> GovernanceConfig.t ->
    M (World X) (list Decision.t);
  actuation_module :
    list Decision.t -> WorldState.t -> M (World X) (list ActuationCommand.t);
  gov_cfg : GovernanceConfig.t;
  tick_id : TickId;
  prev_world : option WorldState.t;
  audit_chain : list AuditEntry.t;
  prev_hash : string }.
Arguments mk {X}.
Arguments sensor {X}.
Arguments perception {X}.
Arguments risk_module {X}.
Arguments policy_module {X}.
Arguments proposal_module {X}.
Arguments governance_module {X}.
Arguments actuation_module {X}.
Arguments gov_cfg {X}.
Arguments tick_id {X}.
Arguments prev_world {X}.
Arguments audit_chain {X}.
Arguments prev_hash {X}.

Section Methods.
Context {X : Type}.

(* "0" * 64 *)
Definition genesis : string := string_of_list_ascii (repeat "0"%char 64).

Definition __init__ sensor perception risk policy proposals governance actuation
    (governance_config : option GovernanceConfig.t) : t X :=
  mk sensor perception risk policy proposals governance actuation
     (default GovernanceConfig.default governance_config)
     0 None [] genesis.

(* assignments to the attributes the kernel owns *)
Definition set_state (tick : TickId) (pw : option WorldState.t)
    (chain : list AuditEntry.t) (ph : string) (self : t X) : t X :=
  mk (sensor self) (perception self) (risk_module self) (policy_module self)
     (proposal_module self) (governance_module self) (actuation_module self)
     (gov_cfg self) tick pw chain ph.
Definition set_tick_id (tick : TickId) (self : t X) : t X :=
  set_state tick (prev_world self) (audit_chain self) (prev_hash self) self.
Definition set_prev_world (pw : option WorldState.t) (self : t X) : t X :=
  set_state (tick_id self) pw (audit_chain self) (prev_hash self) self.
Definition set_audit_chain (chain : list AuditEntry.t) (self : t X) : t X :=
  set_state (tick_id self) (prev_world self) chain (prev_hash self) self.
Definition set_prev_hash (ph : string) (self : t X) : t X :=
  set_state (tick_id self) (prev_world self) (audit_chain self) ph self.

(* a method runs on the kernel object and the world around it *)
Definition Method (A : Type) : Type := M (t X * World X) A.
Definition get_self : Method (t X) := gets fst.
Definition set_self (f : t X -> t X) : Method unit := modify (fun s => (f s.1, s.2)).
(* a call that cannot reach the kernel object *)
Definition call {A} (m : M (World X) A) : Method A := fun s =>
  let '(r, w) := m s.2 in (r, (s.1, w)).

(* the dict that _audit hashes *)
Definition raw_of (entry_id : string) (tick : TickId) (ts : float) (kind : string)
    (payload : pydict) (prev : string) : pydict :=
  [("id", PStr entry_id); ("tick", PInt tick); ("ts", PFloat ts);
   ("kind", PStr kind); ("payload", PDict payload); ("prev_hash", PStr prev)].

Definition _audit (kind : string) (payload : pydict) : Method AuditEntry.t :=
  entry_id ← call uuid4;
  ts ← call time_time;
  self ← get_self;
  let raw := raw_of entry_id (tick_id self) ts kind payload (prev_hash self) in
  h ← of_result (sha256 raw);
  let entry :=
    AuditEntry.mk entry_id (tick_id self) ts kind payload (prev_hash self) h in
  set_self (set_prev_hash h);;
  set_self (fun self => set_audit_chain (audit_chain self ++ [entry]) self);;
  mret entry.

(* len(xs), as a payload value *)
Definition count {A : Type} (xs : list A) : pydict :=
  [("count", PInt (Z.of_nat (length xs)))].

Definition step : Method TickResult.t :=
  set_self (fun self => set_tick_id (tick_id self + 1) self);;
  self ← get_self;
  frame ← call (sensor self (tick_id self) (prev_world self));
  world ← call (perception self frame (prev_world self));
  risk ← call (risk_module self world);
  intents ← call (policy_module self world risk);
  proposals ← call (proposal_module self intents world risk);
  decisions ← call (governance_module self proposals world risk (gov_cfg self));
  actuation ← call (actuation_module self decisions world);
  e1 ← _audit "frame" [("streams", PDict (SensorFrame.streams frame))];
  e2 ← _audit "risk" [("score", PFloat (RiskReport.score risk));
                      ("level", PStr (RiskLevel.name (RiskReport.level risk)))];
  e3 ← _audit "intents" (count intents);
  e4 ← _audit "proposals" (count proposals);
  e5 ← _audit "decisions" (count decisions);
  e6 ← _audit "actuation" (count actuation);
  set_self (set_prev_world (Some world));;
  self ← get_self;
  mret (TickResult.mk (tick_id self) frame world risk intents proposals decisions
          actuation [e1; e2; e3; e4; e5; e6]).
End Methods.

(* the wiring of the __main__ block, with whatever configuration *)
Definition default_wiring (governance_config : option GovernanceConfig.t) : t Rng :=
  __init__ SyntheticSensorAdapter.read DefaultPerceptionModule.run DefaultRiskModule.run
    DefaultPolicyModule.run DefaultProposalModule.run DefaultGovernanceModule.run
    DefaultActuationModule.run governance_config.
End AutonomyKernel.

(** ** The parts of [step], named for the proofs *)

Module Tick.
Import AutonomyKernel.

(* what the seven stages hand to the audit *)
Record Staged := mk {
  frame : SensorFrame.t; world : WorldState.t; risk : RiskReport.t;
  intents : list Intent.t; proposals : list ref; decisions : list Decision.t;
  actuation : list ActuationCommand.t }.

Section Parts.
Context {X : Type}.

(* the first statement of step: self.tick_id += 1 *)
Definition begun (self : t X) : t X := set_tick_id (tick_id self + 1) self.

(* the seven stage calls of step, in its order *)
Definition stages (self : t X) : M (World X) Staged :=
  frame ← sensor self (tick_id self) (prev_world self);
  world ← perception self frame (prev_world self);
  risk ← risk_module self world;
  intents ← policy_module self world risk;
  proposals ← proposal_module self intents world risk;
  decisions ← governance_module self proposals world risk (gov_cfg self);
  actuation ← actuation_module self decisions world;
  mret (mk frame world risk intents proposals decisions actuation).

(* the payloads of the six audit entries, in the order of step *)
Definition summaries (s : Staged) : list (string * pydict) :=
  [("frame", [("streams", PDict (SensorFrame.streams (frame s)))]);
   ("risk", [("score", PFloat (RiskReport.score (risk s)));
             ("level", PStr (RiskLevel.name (RiskReport.level (risk s))))]);
   ("intents", count (intents s));
   ("proposals", count (proposals s));
   ("decisions", count (decisions s));
   ("actuation", count (actuation s))].

(* the entry that _audit builds, given what uuid4 and time.time return *)
Definition entry_of (entry_id : string) (ts : float) (tick : TickId) (prev : string)
    (kp : string * pydict) : AuditEntry.t :=
  AuditEntry.mk entry_id tick ts kp.1 kp.2 prev
    (digest (raw_of entry_id tick ts kp.1 kp.2 prev)).

(* the entries that successive _audit calls append, the first one drawing
   the n-th uuid and the m-th clock reading *)
Fixpoint entries_of (uuids : nat -> string) (times : nat -> float) (n m : nat)
    (tick : TickId) (prev : string) (kps : list (string * pydict))
  : list AuditEntry.t :=
  match kps with
  | [] => []
  | kp :: rest =>
      let e := entry_of (uuids n) (times m) tick prev kp in
      e :: entries_of uuids times (S n) (S m) tick (AuditEntry.hash e) rest
  end.

(* the world after j calls of _audit *)
Definition audited (j : nat) (w : World X) : World X :=
  mkWorld (heap w) (uuid_src w) (j + uuid_n w) (clock w) (j + clock_n w) (ext w).

(* the audit calls of step, one after the other, up to the first that raises *)
Fixpoint record (kps : list (string * pydict)) : @Method X (list AuditEntry.t) :=
  match kps with
  | [] => mret []
  | kp :: rest => e ← _audit kp.1 kp.2; es ← record rest; mret (e :: es)
  end.

(* json.dumps takes the record of each of these audit calls at this tick *)
Definition recordable (tick : TickId) (kps : list (string * pydict)) : bool :=
  forallb (fun kp => encodable (PInt tick) && encodable (PDict kp.2)) kps.

(* the six entries that a tick commits once its stages have returned s *)
Definition committed (self : t X) (w : World X) (s : Staged) : list AuditEntry.t :=
  entries_of (uuid_src w) (clock w) (uuid_n w) (clock_n w) (tick_id self + 1)
    (prev_hash self) (summaries s).

(* one of the seven stages raises e, the ones before it having returned *)
Inductive stage_fails (self : t X) (w : World X) (e : exn) (w' : World X) : Prop :=
| fails_sensor :
    sensor self (tick_id self) (prev_world self) w = (Raise e, w') ->
    stage_fails self w e w'
| fails_perception frame w1 :
    sensor self (tick_id self) (prev_world self) w = (Ok frame, w1) ->
    perception self frame (prev_world self) w1 = (Raise e, w') ->
    stage_fails self w e w'
| fails_risk frame w1 world w2 :
    sensor self (tick_id self) (prev_world self) w = (Ok frame, w1) ->
    perception self frame (prev_world self) w1 = (Ok world, w2) ->
    risk_module self world w2 = (Raise e, w') ->
    stage_fails self w e w'
| fails_policy frame w1 world w2 risk w3 :
    sensor self (tick_id self) (prev_world self) w = (Ok frame, w1) ->
    perception self frame (prev_world self) w1 = (Ok world, w2) ->
    risk_module self world w2 = (Ok risk, w3) ->
    policy_module self world risk w3 = (Raise e, w') ->
    stage_fails self w e w'
| fails_proposal frame w1 world w2 risk w3 intents w4 :
    sensor self (tick_id self) (prev_world self) w = (Ok frame, w1) ->
    perception self frame (prev_world self) w1 = (Ok world, w2) ->
    risk_module self world w2 = (Ok risk, w3) ->
    policy_module self world risk w3 = (Ok intents, w4) ->
    proposal_module self intents world risk w4 = (Raise e, w') ->
    stage_fails self w e w'
| fails_governance frame w1 world w2 risk w3 intents w4 proposals w5 :
    sensor self (tick_id self) (prev_world self) w = (Ok frame, w1) ->
    perception self frame (prev_world self) w1 = (Ok world, w2) ->
    risk_module self world w2 = (Ok risk, w3) ->
    policy_module self world risk w3 = (Ok intents, w4) ->
    proposal_module self intents world risk w4 = (Ok proposals, w5) ->
    governance_module self proposals world risk (gov_cfg self) w5 = (Raise e, w') ->
    stage_fails self w e w'
| fails_actuation frame w1 world w2 risk w3 intents w4 proposals w5 decisions w6 :
    sensor self (tick_id self) (prev_world self) w = (Ok frame, w1) ->
    perception self frame (prev_world self) w1 = (Ok world, w2) ->
    risk_module self world w2 = (Ok risk, w3) ->
    policy_module self world risk w3 = (Ok intents, w4) ->
    proposal_module self intents world risk w4 = (Ok proposals, w5) ->
    governance_module self proposals world risk (gov_cfg self) w5 = (Ok decisions, w6) ->
    actuation_module self decisions world w6 = (Raise e, w') ->
    stage_fails self w e w'.

(* the kernels that __init__, _audit and assignments to the tick counter
   and the previous world state lead to *)
Inductive chained : t X -> Prop :=
| chained_init s p r pol prop g a cfg : chained (__init__ s p r pol prop g a cfg)
| chained_audit self w kind payload :
    chained self -> chained (_audit kind payload (self, w)).2.1
| chained_assign self tick pw :
    chained self -> chained (set_tick_id tick (set_prev_world pw self)).
End Parts.
End Tick.

Import AutonomyKernel Tick.

(** ** Notions and inputs that the statements use *)



Module Governed.
Import DefaultGovernanceModule.
(* the Proposal object as one round of the loop leaves it *)
Definition governed (risk : RiskReport.t) (config : GovernanceConfig.t) (p : Proposal.t)
  : Proposal.t :=
  Proposal.set_governance_notes (gate p risk config).2
    (Proposal.set_status (gate p risk config).1 p).

(* the Decision one round of the loop appends, with the id that uuid4 gave *)
Definition decision_of (did : string) (risk : RiskReport.t) (config : GovernanceConfig.t)
    (p : Proposal.t) : Decision.t :=
  let status := (gate p risk config).1 in
  Decision.mk did (Proposal.id p) (Proposal.tick p) status
    (if ProposalStatus.eqb status ProposalStatus.AUTO_APPROVED then "AUTO" else "HUMAN?")
    (gate p risk config).2.

(* two decisions that differ at most in their id *)
Definition same_but_id (d1 d2 : Decision.t) : Prop :=
  Decision.proposal_id d1 = Decision.proposal_id d2 /\
  Decision.tick d1 = Decision.tick d2 /\
  Decision.status d1 = Decision.status d2 /\
  Decision.operator d1 = Decision.operator d2 /\
  Decision.comment d1 = Decision.comment d2.

(* every reference of the list points at an object *)
Definition valid_refs {X} (w : World X) (refs : list ref) : Prop :=
  Forall (fun r => (r < length (heap w))%nat) refs.
(* the world after the loop: the objects met are governed, the others are
   untouched, and one uuid was drawn per proposal *)
Definition gov_post {X} (risk : RiskReport.t) (config : GovernanceConfig.t)
    (ps : list ref) (w : World X) (ds : list Decision.t) (w' : World X) : Prop :=
  length ds = length ps /\
  (forall i r, ps !! i = Some r ->
     exists p, heap w !! r = Some p /\
       ds !! i = Some (decision_of (uuid_src w (i + uuid_n w)) risk config p)) /\
  (forall r, heap w' !! r =
     if bool_decide (r ∈ ps) then governed risk config <$> heap w !! r else heap w !! r) /\
  uuid_src w' = uuid_src w /\ uuid_n w' = (length ps + uuid_n w)%nat /\
  clock w' = clock w /\ clock_n w' = clock_n w /\ ext w' = ext w.
End Governed.

(* a <= b and a < b on floats: false as soon as one side is a NaN *)
Definition float_le (a b : float) : Prop := PrimFloat.leb a b = true.
Definition float_lt (a b : float) : Prop := PrimFloat.ltb a b = true.

Module Demo.
(* three proposals, the first object met twice, under the __main__ thresholds *)
Definition proposal (pid kind : string) : Proposal.t :=
  Proposal.mk pid 7 kind "Maintain current profile" [] []
    ProposalStatus.PENDING EmptyString.
Definition world : World unit :=
  mkWorld [proposal "p-0" "CONTINUE"; proposal "p-1" "RETREAT"]
    (fun n => "uuid-" +:+ PyFloat.decimal (Z.of_nat n)) 0
    (fun n => (1700000000 + default 0 (PyFloat.float_of_int (Z.of_nat n)))%float) 0 tt.
Definition refs : list ref := [0%nat; 1%nat; 0%nat].
Definition state : WorldState.t := WorldState.mk 7 1700000000 [] [].
Definition risk (score : float) : RiskReport.t :=
  RiskReport.mk 7 1700000000 score RiskLevel.ELEVATED 82 [] "synthetic risk blend".
Definition config (gate_open : bool) : GovernanceConfig.t :=
  GovernanceConfig.mk 45 85 ["RETREAT"; "EMERGENCY"] gate_open.
(* the statuses of the decisions a run returned *)
Definition statuses (r : Result (list Decision.t)) : list ProposalStatus.t :=
  match r with
  | Ok ds => Decision.status <$> ds
  | Raise _ => []
  end.
End Demo.

Module Actuated.
(* d.status == ProposalStatus.AUTO_APPROVED *)
Definition approved (d : Decision.t) : bool :=
  ProposalStatus.eqb (Decision.status d) ProposalStatus.AUTO_APPROVED.

(* the command the actuation module builds for d, with the id that uuid4 gave *)
Definition command_of (cid : string) (d : Decision.t) : ActuationCommand.t :=
  ActuationCommand.mk cid (Decision.tick d) "core"
    [("decision_id", PStr (Decision.id d));
     ("proposal_id", PStr (Decision.proposal_id d));
     ("mode", PStr "EXECUTE")].
End Actuated.

Module DemoKernel.
(* the world around a kernel wired as in __main__ *)
Definition world : World Rng :=
  mkWorld [] (fun n => "uuid-" +:+ PyFloat.decimal (Z.of_nat n)) 0
    (fun n => (1700000000 + default 0 (PyFloat.float_of_int (Z.of_nat n)))%float) 0
    (mkRng (fun _ => 0.5%float) 0).
Definition kernel : t Rng := default_wiring (Some (Demo.config true)).

(* a sensor that is down at tick 2 *)
Definition flaky_read (tick : TickId) (prev_world : option WorldState.t)
  : M (World Rng) SensorFrame.t :=
  if tick =? 2 then raise (StageFailure "sensor offline")
  else SyntheticSensorAdapter.read tick prev_world.
Definition flaky_kernel : t Rng :=
  __init__ flaky_read DefaultPerceptionModule.run DefaultRiskModule.run
    DefaultPolicyModule.run DefaultProposalModule.run DefaultGovernanceModule.run
    DefaultActuationModule.run (Some (Demo.config true)).
End DemoKernel.

(* the tick id of what step returned, if it returned *)
Definition returned_tick (r : Result TickResult.t) : option TickId :=
  match r with
  | Ok snap => Some (TickResult.tick snap)
  | Raise _ => None
  end.

Module Ledger.
(* the dict an entry was hashed from, read back from its fields *)
Definition raw (e : AuditEntry.t) : pydict :=
  raw_of (AuditEntry.id e) (AuditEntry.tick e) (AuditEntry.ts e) (AuditEntry.kind e)
    (AuditEntry.payload e) (AuditEntry.prev_hash e).

(* what _audit keeps true of the chain it appends to: the hash of an entry
   is what sha256 returns on its six fields, and its prev_hash is the hash
   of the entry before it *)
Fixpoint linked (prev : string) (entries : list AuditEntry.t) : Prop :=
  match entries with
  | [] => True
  | e :: rest =>
      sha256 (raw e) = Ok (AuditEntry.hash e) /\ AuditEntry.prev_hash e = prev /\
      linked (AuditEntry.hash e) rest
  end.



(* the hash that the entry after the chain has to name *)
Definition tip (prev : string) (entries : list AuditEntry.t) : string :=
  List.last (map AuditEntry.hash entries) prev.

(* what the kernel keeps true of its chain *)
Definition ledger_inv {X} (k : t X) : Prop :=
  linked genesis (audit_chain k) /\ prev_hash k = tip genesis (audit_chain k).
End Ledger.

Module DemoLedger.
(* a sensor whose streams hold a list, as the SensorFrame docstring has it:
   {"fleet": [...]} *)
Definition fleet_read (tick : TickId) (prev_world : option WorldState.t)
  : M (World Rng) SensorFrame.t :=
  ts ← time_time;
  mret (SensorFrame.mk tick ts [("fleet", PList [PInt 1; PInt 2])]).
Definition kernel : t Rng :=
  __init__ fleet_read DefaultPerceptionModule.run DefaultRiskModule.run
    DefaultPolicyModule.run DefaultProposalModule.run DefaultGovernanceModule.run
    DefaultActuationModule.run None.
(* the kernel and the world after one tick, and the chain it has built *)
Definition after_tick : t Rng * World Rng := (step (kernel, DemoKernel.world)).2.
Definition chain : list AuditEntry.t := audit_chain after_tick.1.
End DemoLedger.

Module Wiring.
(* the seven modules of the kernel are the default ones *)
Definition by_default (k : t Rng) : Prop :=
  sensor k = SyntheticSensorAdapter.read /\
  perception k = DefaultPerceptionModule.run /\
  risk_module k = DefaultRiskModule.run /\
  policy_module k = DefaultPolicyModule.run /\
  proposal_module k = DefaultProposalModule.run /\
  governance_module k = DefaultGovernanceModule.run /\
  actuation_module k = DefaultActuationModule.run.


(* the object that one round of the proposal loop allocates *)
Definition fresh_proposal (world : WorldState.t) (pid : string) (intent : Intent.t)
    (p : Proposal.t) : Prop :=
  Proposal.id p = pid /\ Proposal.tick p = WorldState.tick world /\
  Proposal.source_intent p = Intent.kind intent /\
  Proposal.status p = ProposalStatus.PENDING /\
  Proposal.governance_notes p = EmptyString.
End Wiring.

Module DemoStale.
(* a sensor adapter that stamps every frame with tick 0, whatever tick the
   kernel passes *)
Definition stale_read (tick : TickId) (prev_world : option WorldState.t)
  : M (World Rng) SensorFrame.t :=
  SyntheticSensorAdapter.read 0 prev_world.
Definition kernel : t Rng :=
  __init__ stale_read DefaultPerceptionModule.run DefaultRiskModule.run
    DefaultPolicyModule.run DefaultProposalModule.run DefaultGovernanceModule.run
    DefaultActuationModule.run (Some (Demo.config true)).
End DemoStale.





Module Main.
(* the first n rounds of the loop of __main__: tr = kernel.step(), again
   and again; the snapshots in the order in which they are printed *)
Fixpoint rounds {X} (n : nat) : @Method X (list TickResult.t) :=
  match n with
  | O => mret []
  | S n => tr ← step; trs ← rounds n; mret (tr :: trs)
  end.

(* the kernel that __main__ builds *)
Definition kernel : t Rng :=
  default_wiring
    (Some (GovernanceConfig.mk 45 85
             (GovernanceConfig.require_human_for GovernanceConfig.default) true)).
End Main.

(* the values on which .get is an AttributeError: None, numbers, str, list
   and tuple have no such attribute *)
Definition has_no_get (v : pyval) : bool :=
  match v with
  | PNone | PBool _ | PInt _ | PFloat _ | PStr _ | PList _ | PTuple _ => true
  | PDict _ | PObj _ => false
  end.

Module DemoFaulty.
(* a sensor whose ops stream is a list of readings, not a dict *)
Definition list_read (tick : TickId) (prev_world : option WorldState.t)
  : M (World Rng) SensorFrame.t :=
  ts ← time_time;
  mret (SensorFrame.mk tick ts [("ops", PList [PFloat 0.5; PFloat 0.25])]).
Definition kernel : t Rng :=
  __init__ list_read DefaultPerceptionModule.run DefaultRiskModule.run
    DefaultPolicyModule.run DefaultProposalModule.run DefaultGovernanceModule.run
    DefaultActuationModule.run None.

(* a sensor whose frames carry a serial number of 4301 digits *)
Definition serial_read (tick : TickId) (prev_world : option WorldState.t)
  : M (World Rng) SensorFrame.t :=
  ts ← time_time;
  mret (SensorFrame.mk tick ts
          [("ops", PDict [("system_load", PFloat 0.5)]);
           ("serial", PInt PyFloat.int_limit)]).
Definition serial_kernel : t Rng :=
  __init__ serial_read DefaultPerceptionModule.run DefaultRiskModule.run
    DefaultPolicyModule.run DefaultProposalModule.run DefaultGovernanceModule.run
    DefaultActuationModule.run None.

End DemoFaulty.



(** * Proofs *)

Import Governed Actuated Ledger Wiring DefaultGovernanceModule.

Lemma sha256_run data :
  sha256 data = if encodable (PDict data) then Ok (digest data) else Raise ValueError.
Proof. unfold sha256, dumps, digest. by destruct (encodable _). Qed.

Lemma digest_eq data : digest data = Hashlib.sha256_hexdigest (text (PDict data)).
Proof. reflexivity. Qed.

(* the digest is never unfolded in a proof that does not compute one *)
#[local] Opaque digest.

Ltac kstep :=
  cbv beta iota delta
    [mbind mret M_bind M_ret call get_self set_self gets modify raise of_result fst snd].

Ltac kernel_simpl :=
  cbn [tick_id prev_world audit_chain prev_hash gov_cfg sensor perception risk_module
       policy_module proposal_module governance_module actuation_module
       set_state set_prev_world set_tick_id set_audit_chain set_prev_hash begun
       audited uuid_n clock_n uuid_src clock heap ext Nat.add].

Lemma ok_inv {A S} (r : Result A * S) : is_ok r.1 = true -> exists a s, r = (Ok a, s).
Proof. destruct r as [[a|e] s]; [by exists a, s|discriminate]. Qed.

Lemma encodable_raw entry_id tick ts kind payload prev :
  encodable (PDict (raw_of entry_id tick ts kind payload prev)) =
  encodable (PInt tick) && encodable (PDict payload).
Proof.
  unfold raw_of. cbn [encodable forallb snd andb]. by rewrite !andb_true_r.
Qed.

Section KernelFacts.
Context {X : Type}.
Implicit Types (k self : t X) (w : World X).

Lemma audit_run k w kind payload :
  _audit kind payload (k, w) =
  if encodable (PInt (tick_id k)) && encodable (PDict payload) then
    let e := entry_of (uuid_src w (uuid_n w)) (clock w (clock_n w)) (tick_id k)
               (prev_hash k) (kind, payload) in
    (Ok e, (set_state (tick_id k) (prev_world k) (audit_chain k ++ [e])
              (AuditEntry.hash e) k,
            audited 1 w))
  else (Raise ValueError, (k, audited 1 w)).
Proof.
  unfold _audit. kstep. unfold uuid4, time_time. kstep.
  cbn [heap uuid_src uuid_n clock clock_n ext].
  rewrite sha256_run, encodable_raw.
  by destruct (_ && _).
Qed.

(* a call of _audit changes nothing of the kernel but its chain and its
   previous hash, whether it returns or raises *)
Lemma audit_frame k w kind payload :
  let k' := (_audit kind payload (k, w)).2.1 in
  tick_id k' = tick_id k /\ prev_world k' = prev_world k /\
  sensor k' = sensor k /\ perception k' = perception k /\
  risk_module k' = risk_module k /\ policy_module k' = policy_module k /\
  proposal_module k' = proposal_module k /\
  governance_module k' = governance_module k /\
  actuation_module k' = actuation_module k /\ gov_cfg k' = gov_cfg k.
Proof. cbv zeta. rewrite audit_run. by destruct (_ && _). Qed.

Lemma record_cons kp kps k w :
  record (kp :: kps) (k, w) =
  match _audit kp.1 kp.2 (k, w) with
  | (Ok e, st) =>
      match record kps st with
      | (Ok es, st') => (Ok (e :: es), st')
      | (Raise x, st') => (Raise x, st')
      end
  | (Raise x, st) => (Raise x, st)
  end.
Proof. reflexivity. Qed.

Lemma record_frame kps : forall k w,
  let k' := (record kps (k, w)).2.1 in
  tick_id k' = tick_id k /\ prev_world k' = prev_world k /\
  sensor k' = sensor k /\ perception k' = perception k /\
  risk_module k' = risk_module k /\ policy_module k' = policy_module k /\
  proposal_module k' = proposal_module k /\
  governance_module k' = governance_module k /\
  actuation_module k' = actuation_module k /\ gov_cfg k' = gov_cfg k.
Proof.
  induction kps as [|kp kps IH]; intros k w; cbv zeta; [by repeat split|].
  rewrite record_cons. pose proof (audit_frame k w kp.1 kp.2) as Ha. cbv zeta in Ha.
  destruct (_audit kp.1 kp.2 (k, w)) as [[e|x] [k1 w1]]; cbn [fst snd] in *; [|done].
  specialize (IH k1 w1). cbv zeta in IH.
  destruct (record kps (k1, w1)) as [[es|x] [k2 w2]]; cbn [fst snd] in *;
    destruct Ha as (<- & <- & <- & <- & <- & <- & <- & <- & <- & <-); exact IH.
Qed.

Lemma record_chained kps : forall k w, chained k -> chained (record kps (k, w)).2.1.
Proof.
  induction kps as [|kp kps IH]; intros k w Hk; [done|].
  rewrite record_cons. pose proof (chained_audit k w kp.1 kp.2 Hk) as Ha.
  destruct (_audit kp.1 kp.2 (k, w)) as [[e|x] [k1 w1]]; cbn [fst snd] in *; [|done].
  specialize (IH k1 w1 Ha).
  by destruct (record kps (k1, w1)) as [[es|x] [k2 w2]].
Qed.

(* the audit calls of a tick raise nothing but the ValueError of json.dumps *)
Lemma record_raises kps : forall k w e st,
  record kps (k, w) = (Raise e, st) -> e = ValueError.
Proof.
  induction kps as [|kp kps IH]; intros k w e st; [discriminate|].
  rewrite record_cons, audit_run.
  destruct (_ && _); [|by intros [= <- _]]. cbv beta iota zeta.
  match goal with |- context [record kps ?s] => destruct (record kps s) as [[es|x] st'] eqn:Hr end;
    [discriminate|].
  intros [= <- _]. destruct st'. by eapply IH.
Qed.

(* they all return exactly when json.dumps takes every record, and then
   append the entries that [entries_of] lists *)
Lemma last_cons_any {A} (x : A) l d : List.last (x :: l) d = List.last l x.
Proof.
  revert x d. induction l as [|y l IH]; intros x d; [done|].
  change (List.last (y :: l) d = List.last (y :: l) x). by rewrite !IH.
Qed.

Lemma record_ok kps : forall k w,
  recordable (tick_id k) kps = true ->
  record kps (k, w) =
  let es := entries_of (uuid_src w) (clock w) (uuid_n w) (clock_n w) (tick_id k)
              (prev_hash k) kps in
  (Ok es,
   (set_state (tick_id k) (prev_world k) (audit_chain k ++ es)
      (List.last (map AuditEntry.hash es) (prev_hash k)) k,
    audited (length kps) w)).
Proof.
  unfold recordable.
  induction kps as [|[kind payload] kps IH]; intros k w Hr; cbv zeta.
  { cbn. rewrite app_nil_r. by destruct k, w. }
  cbn [forallb] in Hr. apply andb_prop in Hr as [Hp Hr].
  rewrite record_cons, audit_run. cbn [fst snd] in *.
  match goal with
  | |- context [if ?b then _ else _] => replace b with true by (symmetry; exact Hp)
  end.
  cbv beta iota zeta. set (e := entry_of _ _ _ _ _).
  rewrite IH by (kernel_simpl; exact Hr).
  cbv zeta. kernel_simpl. cbn [entries_of length map]. fold e.
  rewrite <- app_assoc. cbn [app]. rewrite (last_cons_any (AuditEntry.hash e)).
  unfold audited. cbn [heap uuid_src uuid_n clock clock_n ext].
  replace (length kps + (1 + uuid_n w))%nat with (S (length kps) + uuid_n w)%nat by lia.
  replace (length kps + (1 + clock_n w))%nat with (S (length kps) + clock_n w)%nat by lia.
  reflexivity.
Qed.

Lemma record_ok_inv kps : forall k w es st,
  record kps (k, w) = (Ok es, st) -> recordable (tick_id k) kps = true.
Proof.
  unfold recordable.
  induction kps as [|[kind payload] kps IH]; intros k w es st; [done|].
  rewrite record_cons, audit_run. cbn [forallb fst snd].
  destruct (_ && _); [|discriminate]. cbv beta iota zeta. cbn [andb].
  match goal with
  | |- context [record kps (?k1, ?w1)] =>
      destruct (record kps (k1, w1)) as [[es'|x] st'] eqn:Hr; [|discriminate];
      apply IH in Hr
  end.
  intros _. revert Hr. by kernel_simpl.
Qed.

(* the first audit call of a tick raises, before anything is appended *)
Lemma record_first_raises kp kps k w :
  encodable (PInt (tick_id k)) && encodable (PDict kp.2) = false ->
  record (kp :: kps) (k, w) = (Raise ValueError, (k, audited 1 w)).
Proof.
  intros Hp. rewrite record_cons, audit_run.
  match goal with
  | |- context [if ?b then _ else _] => replace b with false by (symmetry; exact Hp)
  end.
  reflexivity.
Qed.

Lemma step_eq k w :
  step (k, w) =
  match stages (begun k) w with
  | (Raise e, w1) => (Raise e, (begun k, w1))
  | (Ok s, w1) =>
      match record (summaries s) (begun k, w1) with
      | (Ok es, (k6, w6)) =>
          (Ok (TickResult.mk (tick_id k6) (frame s) (world s) (risk s) (intents s)
                 (proposals s) (decisions s) (actuation s) es),
           (set_prev_world (Some (world s)) k6, w6))
      | (Raise e, st) => (Raise e, st)
      end
  end.
Proof.
  unfold step, stages. kstep.
  change (set_tick_id (tick_id k + 1) k) with (begun k).
  destruct (sensor (begun k) _ _ w) as [[frame|e] w1]; [|reflexivity].
  destruct (perception (begun k) _ _ w1) as [[world|e] w2]; [|reflexivity].
  destruct (risk_module (begun k) _ w2) as [[risk|e] w3]; [|reflexivity].
  destruct (policy_module (begun k) _ _ w3) as [[intents|e] w4]; [|reflexivity].
  destruct (proposal_module (begun k) _ _ _ w4) as [[proposals|e] w5]; [|reflexivity].
  destruct (governance_module (begun k) _ _ _ _ w5) as [[decisions|e] w6]; [|reflexivity].
  destruct (actuation_module (begun k) _ _ w6) as [[actuation|e] w7]; [|reflexivity].
  unfold summaries. cbn [record Tick.frame Tick.world Tick.risk Tick.intents
                         Tick.proposals Tick.decisions Tick.actuation]. kstep.
  do 6 (match goal with
        | |- context [_audit ?kd ?pl ?st] =>
            destruct (_audit kd pl st) as [[?e|?x] [?k ?w]]; [|reflexivity]
        end).
  reflexivity.
Qed.

Lemma stages_raise self w e w' :
  stages self w = (Raise e, w') <-> stage_fails self w e w'.
Proof.
  unfold stages. kstep. split.
  - destruct (sensor self _ _ w) as [[frame|e1] w1] eqn:E1;
      [|intros [= -> ->]; by apply fails_sensor].
    destruct (perception self _ _ w1) as [[world|e2] w2] eqn:E2;
      [|intros [= -> ->]; by eapply fails_perception].
    destruct (risk_module self _ w2) as [[risk|e3] w3] eqn:E3;
      [|intros [= -> ->]; by eapply fails_risk].
    destruct (policy_module self _ _ w3) as [[intents|e4] w4] eqn:E4;
      [|intros [= -> ->]; by eapply fails_policy].
    destruct (proposal_module self _ _ _ w4) as [[proposals|e5] w5] eqn:E5;
      [|intros [= -> ->]; by eapply fails_proposal].
    destruct (governance_module self _ _ _ _ w5) as [[decisions|e6] w6] eqn:E6;
      [|intros [= -> ->]; by eapply fails_governance].
    destruct (actuation_module self _ _ w6) as [[actuation|e7] w7] eqn:E7;
      [|intros [= -> ->]; by eapply fails_actuation].
    discriminate.
  - intros [H1|? ? H1 H2|? ? ? ? H1 H2 H3|? ? ? ? ? ? H1 H2 H3 H4
           |? ? ? ? ? ? ? ? H1 H2 H3 H4 H5|? ? ? ? ? ? ? ? ? ? H1 H2 H3 H4 H5 H6
           |? ? ? ? ? ? ? ? ? ? ? ? H1 H2 H3 H4 H5 H6 H7];
      rewrite H1; try rewrite H2; try rewrite H3; try rewrite H4; try rewrite H5;
      try rewrite H6; try rewrite H7; reflexivity.
Qed.

Lemma stages_ok self w s w7 :
  stages self w = (Ok s, w7) <->
  exists w1 w2 w3 w4 w5 w6,
    sensor self (tick_id self) (prev_world self) w = (Ok (frame s), w1) /\
    perception self (frame s) (prev_world self) w1 = (Ok (world s), w2) /\
    risk_module self (world s) w2 = (Ok (risk s), w3) /\
    policy_module self (world s) (risk s) w3 = (Ok (intents s), w4) /\
    proposal_module self (intents s) (world s) (risk s) w4 = (Ok (proposals s), w5) /\
    governance_module self (proposals s) (world s) (risk s) (gov_cfg self) w5
      = (Ok (decisions s), w6) /\
    actuation_module self (decisions s) (world s) w6 = (Ok (actuation s), w7).
Proof.
  unfold stages. kstep. split.
  - destruct (sensor self _ _ w) as [[frame|e1] w1] eqn:E1; [|discriminate].
    destruct (perception self _ _ w1) as [[world|e2] w2] eqn:E2; [|discriminate].
    destruct (risk_module self _ w2) as [[risk|e3] w3] eqn:E3; [|discriminate].
    destruct (policy_module self _ _ w3) as [[intents|e4] w4] eqn:E4; [|discriminate].
    destruct (proposal_module self _ _ _ w4) as [[proposals|e5] w5] eqn:E5; [|discriminate].
    destruct (governance_module self _ _ _ _ w5) as [[decisions|e6] w6] eqn:E6;
      [|discriminate].
    destruct (actuation_module self _ _ w6) as [[actuation|e7] w7'] eqn:E7; [|discriminate].
    intros [= <- <-]. cbn. by exists w1, w2, w3, w4, w5, w6.
  - intros (w1 & w2 & w3 & w4 & w5 & w6 & H1 & H2 & H3 & H4 & H5 & H6 & H7).
    rewrite H1, H2, H3, H4, H5, H6, H7. by destruct s.
Qed.
End KernelFacts.

Ltac mstep :=
  cbv beta iota delta
    [mbind mret M_bind M_ret gets modify raise of_result fst snd].

Section GovernanceFacts.
Context {X : Type}.
Variables (world : WorldState.t) (risk : RiskReport.t) (config : GovernanceConfig.t).
Implicit Types (w : World X) (p : Proposal.t) (ps : list ref).

Lemma gate_governed p : gate (governed risk config p) risk config = gate p risk config.
Proof. reflexivity. Qed.

Lemma governed_idem p :
  governed risk config (governed risk config p) = governed risk config p.
Proof. reflexivity. Qed.

Lemma decision_of_governed did p :
  decision_of did risk config (governed risk config p) = decision_of did risk config p.
Proof. reflexivity. Qed.

Lemma gov_run_spec ps : forall w,
  valid_refs w ps ->
  exists ds w', run ps world risk config w = (Ok ds, w') /\ gov_post risk config ps w ds w'.
Proof.
  induction ps as [|r ps IH]; intros w Hv.
  - exists [], w. split; [reflexivity|].
    repeat split; try done.
  - apply Forall_cons in Hv as [Hr Hv].
    destruct (lookup_lt_is_Some_2 _ _ Hr) as [p Hp].
    set (w1 := mkWorld (<[r := governed risk config p]> (heap w)) (uuid_src w)
                 (S (uuid_n w)) (clock w) (clock_n w) (ext w)).
    destruct (IH w1) as (ds & w' & Hrun & Hlen & Hds & Hheap & Hsrc & Hn & Hc & Hcn & He).
    { unfold valid_refs in *. cbn. by rewrite length_insert. }
    exists (decision_of (uuid_src w (uuid_n w)) risk config p :: ds), w'. split.
    + unfold run in *. cbn [for_each]. mstep. unfold load at 1. rewrite Hp.
      destruct (gate p risk config) as [status comment] eqn:Hg.
      mstep. unfold store at 1. rewrite Hp. mstep.
      unfold store at 1. cbn [with_heap heap].
      rewrite list_lookup_insert_eq by done. mstep.
      unfold uuid4 at 1. cbn [with_heap heap uuid_src uuid_n clock clock_n ext].
      rewrite list_insert_insert_eq.
      replace (<[r:=_]> (heap w)) with (heap w1); cycle 1.
      { cbn. unfold governed. by rewrite Hg. }
      change (mkWorld (heap w1) _ _ _ _ _) with w1.
      change (for_each _ ps w1) with (run ps world risk config w1) in *.
      fold (@run X ps world risk config w1). 
      unfold M in *. rewrite Hrun. cbn. unfold decision_of. by rewrite Hg.
    + repeat split.
      * cbn. by rewrite Hlen.
      * intros [|i] r' Hi; cbn in Hi.
        { injection Hi as <-. exists p. by split. }
        destruct (Hds i r' Hi) as (p' & Hp' & Hd). cbn in Hp'.
        destruct (decide (r = r')) as [<-|Hne].
        -- rewrite list_lookup_insert_eq in Hp' by done. injection Hp' as <-.
           exists p. split; [done|]. etrans; [exact Hd|]. cbn.
           by rewrite Nat.add_succ_r.
        -- rewrite list_lookup_insert_ne in Hp' by done.
           exists p'. split; [done|]. etrans; [exact Hd|]. cbn. by rewrite Nat.add_succ_r.
      * intros x. rewrite Hheap. cbn.
        destruct (decide (x = r)) as [->|Hne].
        -- rewrite list_lookup_insert_eq by done. rewrite Hp.
           rewrite (bool_decide_eq_true_2 (r ∈ r :: ps)) by left.
           by destruct (bool_decide (r ∈ ps)).
        -- rewrite list_lookup_insert_ne by done.
           by rewrite (bool_decide_ext (x ∈ r :: ps) (x ∈ ps))
             by (rewrite elem_of_cons; tauto).
      * by rewrite Hsrc.
      * rewrite Hn. cbn. lia.
      * by rewrite Hc.
      * by rewrite Hcn.
      * by rewrite He.
Qed.

Lemma gov_run_valid ps : forall w ds w',
  run ps world risk config w = (Ok ds, w') -> valid_refs w ps.
Proof.
  induction ps as [|r ps IH]; intros w ds w' Hrun; [by constructor|].
  unfold run in Hrun. cbn [for_each] in Hrun. revert Hrun. mstep.
  unfold load at 1. destruct (heap w !! r) as [p|] eqn:Hp; [|discriminate].
  destruct (gate p risk config) as [status comment] eqn:Hg.
  mstep. unfold store at 1. rewrite Hp. mstep.
  unfold store at 1. cbn [with_heap heap].
  rewrite list_lookup_insert_eq by (by eapply lookup_lt_Some). mstep.
  unfold uuid4 at 1. cbn [with_heap heap uuid_src uuid_n clock clock_n ext].
  match goal with |- context [for_each ?f ps ?w1] =>
    destruct (for_each f ps w1) as [[ds1|e] w2] eqn:Hrest; [|discriminate];
    apply IH in Hrest end.
  intros _. constructor; [by eapply lookup_lt_Some|].
  unfold valid_refs in *. cbn in Hrest. by rewrite !length_insert in Hrest.
Qed.
End GovernanceFacts.

Section GateClaims.
Context {X : Type}.
Implicit Types (w : World X) (p : Proposal.t) (ps : list ref).

Lemma str_in_elem_of (x : string) xs : str_in x xs = true <-> x ∈ xs.
Proof.
  unfold str_in. rewrite existsb_exists, list_elem_of_In. split.
  - intros (y & Hy & Heq). apply String.eqb_eq in Heq. by subst.
  - intros Hx. exists x. split; [done|]. apply String.eqb_refl.
Qed.

Lemma gate_status_cases p risk config :
  let score := RiskReport.score risk in
  let kind := Proposal.source_intent p in
  let status := (gate p risk config).1 in
  (float_le (GovernanceConfig.hard_block_risk config) score ->
     status = ProposalStatus.BLOCKED) /\
  (~ float_le (GovernanceConfig.hard_block_risk config) score ->
     GovernanceConfig.gate_open config = false ->
     status = ProposalStatus.REQUIRES_HUMAN) /\
  (~ float_le (GovernanceConfig.hard_block_risk config) score ->
     GovernanceConfig.gate_open config = true ->
     float_lt (GovernanceConfig.max_auto_risk config) score \/
       kind ∈ GovernanceConfig.require_human_for config ->
     status = ProposalStatus.REQUIRES_HUMAN) /\
  (~ float_le (GovernanceConfig.hard_block_risk config) score ->
     GovernanceConfig.gate_open config = true ->
     ~ float_lt (GovernanceConfig.max_auto_risk config) score ->
     kind ∉ GovernanceConfig.require_human_for config ->
     status = ProposalStatus.AUTO_APPROVED).
Proof.
  cbv zeta. unfold gate, float_le, float_lt.
  destruct (PrimFloat.leb _ _) eqn:Hb; [by repeat split|].
  destruct (GovernanceConfig.gate_open config) eqn:Hg; cbn [negb];
    [|by repeat split].
  destruct (PrimFloat.ltb _ _) eqn:Hm; cbn [orb].
  { repeat split; try done. }
  destruct (str_in _ _) eqn:Hin.
  - apply str_in_elem_of in Hin. repeat split; try done.
  - assert (Proposal.source_intent p ∉ GovernanceConfig.require_human_for config).
    { intros Hc%str_in_elem_of. congruence. }
    repeat split; try done. by intros _ _ [?|?].
Qed.

(** C1: for every proposal handed to the governance module, the status of
    its decision follows the strict precedence: risk score >= hard_block_risk
    gives BLOCKED whatever the gate switch and the intent kind; otherwise a
    closed gate gives REQUIRES_HUMAN; otherwise a risk score > max_auto_risk
    or a source intent kind in require_human_for gives REQUIRES_HUMAN;
    otherwise AUTO_APPROVED. *)
Theorem governance_gate_precedence ps world risk config w :
  valid_refs w ps ->
  exists ds w',
    DefaultGovernanceModule.run ps world risk config w = (Ok ds, w') /\
    length ds = length ps /\
    forall i r p d,
      ps !! i = Some r -> heap w !! r = Some p -> ds !! i = Some d ->
      let score := RiskReport.score risk in
      let kind := Proposal.source_intent p in
      let status := Decision.status d in
      (float_le (GovernanceConfig.hard_block_risk config) score ->
         status = ProposalStatus.BLOCKED) /\
      (~ float_le (GovernanceConfig.hard_block_risk config) score ->
         GovernanceConfig.gate_open config = false ->
         status = ProposalStatus.REQUIRES_HUMAN) /\
      (~ float_le (GovernanceConfig.hard_block_risk config) score ->
         GovernanceConfig.gate_open config = true ->
         float_lt (GovernanceConfig.max_auto_risk config) score \/
           kind ∈ GovernanceConfig.require_human_for config ->
         status = ProposalStatus.REQUIRES_HUMAN) /\
      (~ float_le (GovernanceConfig.hard_block_risk config) score ->
         GovernanceConfig.gate_open config = true ->
         ~ float_lt (GovernanceConfig.max_auto_risk config) score ->
         kind ∉ GovernanceConfig.require_human_for config ->
         status = ProposalStatus.AUTO_APPROVED).
Proof.
  intros Hv.
  destruct (gov_run_spec world risk config ps w Hv) as (ds & w' & Hrun & Hlen & Hds & _).
  exists ds, w'. split; [done|]. split; [done|].
  intros i r p d Hi Hp Hd.
  destruct (Hds i r Hi) as (p' & Hp' & Hd').
  assert (p' = p) as -> by congruence.
  assert (d = decision_of (uuid_src w (i + uuid_n w)) risk config p) as -> by congruence.
  apply gate_status_cases.
Qed.
End GateClaims.

Lemma governance_gate_precedence_witness :
  valid_refs Demo.world Demo.refs /\
  (exists ds w',
     DefaultGovernanceModule.run Demo.refs Demo.state (Demo.risk 30) (Demo.config true)
       Demo.world = (Ok ds, w') /\
     length ds = 3%nat) /\
  Demo.statuses
    (DefaultGovernanceModule.run Demo.refs Demo.state (Demo.risk 30) (Demo.config true)
       Demo.world).1 =
    [ProposalStatus.AUTO_APPROVED; ProposalStatus.REQUIRES_HUMAN;
     ProposalStatus.AUTO_APPROVED].
Proof.
  assert (valid_refs Demo.world Demo.refs) as Hv by repeat constructor.
  split; [exact Hv|]. split; [|vm_compute; reflexivity].
  destruct (governance_gate_precedence Demo.refs Demo.state (Demo.risk 30)
              (Demo.config true) Demo.world Hv) as (ds & w' & Hrun & Hlen & _).
  by exists ds, w'.
Defined.

Section WriteBack.
Context {X : Type}.
Implicit Types (w : World X) (p : Proposal.t) (ps : list ref).

Lemma gate_not_pending p risk config : (gate p risk config).1 <> ProposalStatus.PENDING.
Proof.
  unfold gate. destruct (PrimFloat.leb _ _); [done|].
  destruct (negb _); [done|]. by destruct (_ || _).
Qed.

(** C9: after governance has run, the status and the governance notes on
    every proposal are the status and the comment of its decision; the
    operator of a decision is AUTO exactly when its status is
    AUTO_APPROVED and the placeholder HUMAN? otherwise; no decision is
    PENDING. *)
Theorem governance_write_back ps world risk config w :
  valid_refs w ps ->
  exists ds w',
    DefaultGovernanceModule.run ps world risk config w = (Ok ds, w') /\
    length ds = length ps /\
    forall i r d,
      ps !! i = Some r -> ds !! i = Some d ->
      (exists p',
         heap w' !! r = Some p' /\
         Proposal.status p' = Decision.status d /\
         Proposal.governance_notes p' = Decision.comment d) /\
      (Decision.operator d = "AUTO" <->
         Decision.status d = ProposalStatus.AUTO_APPROVED) /\
      (Decision.status d <> ProposalStatus.AUTO_APPROVED ->
         Decision.operator d = "HUMAN?") /\
      Decision.status d <> ProposalStatus.PENDING.
Proof.
  intros Hv.
  destruct (gov_run_spec world risk config ps w Hv)
    as (ds & w' & Hrun & Hlen & Hds & Hheap & _).
  exists ds, w'. split; [done|]. split; [done|].
  intros i r d Hi Hd.
  destruct (Hds i r Hi) as (p & Hp & Hd').
  assert (d = decision_of (uuid_src w (i + uuid_n w)) risk config p) as -> by congruence.
  split; [|split; [|split]].
  - exists (governed risk config p). split; [|by split].
    rewrite Hheap, bool_decide_eq_true_2, Hp; [done|].
    by eapply list_elem_of_lookup_2.
  - cbn. by destruct (gate p risk config).1.
  - cbn. by destruct (gate p risk config).1.
  - apply gate_not_pending.
Qed.
End WriteBack.

Lemma governance_write_back_witness :
  valid_refs Demo.world Demo.refs /\
  (exists ds w',
     DefaultGovernanceModule.run Demo.refs Demo.state (Demo.risk 90) (Demo.config true)
       Demo.world = (Ok ds, w') /\
     length ds = 3%nat) /\
  Proposal.status <$>
    heap (DefaultGovernanceModule.run Demo.refs Demo.state (Demo.risk 90) (Demo.config true)
            Demo.world).2 =
    [ProposalStatus.BLOCKED; ProposalStatus.BLOCKED].
Proof.
  assert (valid_refs Demo.world Demo.refs) as Hv by repeat constructor.
  split; [exact Hv|]. split; [|vm_compute; reflexivity].
  destruct (governance_write_back Demo.refs Demo.state (Demo.risk 90)
              (Demo.config true) Demo.world Hv) as (ds & w' & Hrun & Hlen & _).
  by exists ds, w'.
Defined.

Section Determinism.
Context {X : Type}.
Implicit Types (w : World X) (p : Proposal.t) (ps : list ref).

Lemma gov_post_same_but_id ps risk config w1 w2 ds1 ds2 w1' w2' :
  (forall r, r ∈ ps -> exists p,
     heap w1 !! r = Some p /\
     (heap w2 !! r = Some p \/ heap w2 !! r = Some (governed risk config p))) ->
  gov_post risk config ps w1 ds1 w1' -> gov_post risk config ps w2 ds2 w2' ->
  Forall2 same_but_id ds1 ds2.
Proof.
  intros Hh (Hl1 & Hd1 & _) (Hl2 & Hd2 & _).
  apply Forall2_same_length_lookup_2; [congruence|].
  intros i d1 d2 Hi1 Hi2.
  destruct (lookup_lt_is_Some_2 ps i) as [r Hr].
  { rewrite <- Hl1. by eapply lookup_lt_Some. }
  destruct (Hd1 i r Hr) as (p1 & Hp1 & Hd1').
  destruct (Hd2 i r Hr) as (p2 & Hp2 & Hd2').
  destruct (Hh r) as (p & Hp & Hp'); [by eapply list_elem_of_lookup_2|].
  assert (p1 = p) as -> by congruence.
  assert (d1 = decision_of (uuid_src w1 (i + uuid_n w1)) risk config p) as -> by congruence.
  assert (d2 = decision_of (uuid_src w2 (i + uuid_n w2)) risk config p2) as -> by congruence.
  destruct Hp' as [Hp'|Hp']; rewrite Hp' in Hp2; injection Hp2 as <-; by repeat split.
Qed.

(** C8 (as the code has it): two runs of the governance module on the same
    proposals, risk report and configuration, whatever uuid4 returns in
    each, give decisions that agree on proposal_id, tick, status, operator
    and comment, one per proposal, and leave the same proposals behind; so
    does a second run made after the first; the id of a decision is what
    uuid4 returned, and is the only field that can differ. *)
Theorem governance_deterministic_but_id ps world risk config w1 w2 :
  heap w1 = heap w2 -> valid_refs w1 ps ->
  exists ds1 w1' ds2 w2' ds3 w3',
    DefaultGovernanceModule.run ps world risk config w1 = (Ok ds1, w1') /\
    DefaultGovernanceModule.run ps world risk config w2 = (Ok ds2, w2') /\
    DefaultGovernanceModule.run ps world risk config w1' = (Ok ds3, w3') /\
    Forall2 same_but_id ds1 ds2 /\ Forall2 same_but_id ds1 ds3 /\
    heap w1' = heap w2' /\ heap w3' = heap w1' /\
    (forall i d, ds1 !! i = Some d -> Decision.id d = uuid_src w1 (i + uuid_n w1)) /\
    (forall i d, ds2 !! i = Some d -> Decision.id d = uuid_src w2 (i + uuid_n w2)).
Proof.
  intros Hheap Hv1.
  assert (valid_refs w2 ps) as Hv2 by (unfold valid_refs in *; by rewrite <- Hheap).
  destruct (gov_run_spec world risk config ps w1 Hv1) as (ds1 & w1' & Hrun1 & Hpost1).
  destruct (gov_run_spec world risk config ps w2 Hv2) as (ds2 & w2' & Hrun2 & Hpost2).
  assert (valid_refs w1' ps) as Hv3.
  { unfold valid_refs in *. eapply Forall_impl; [exact Hv1|]. intros r Hr. cbn in Hr.
    destruct Hpost1 as (_ & _ & Hh & _).
    apply lookup_lt_is_Some_2 in Hr as [p Hp].
    apply (lookup_lt_Some _ _ (if bool_decide (r ∈ ps) then governed risk config p else p)).
    rewrite Hh, Hp. by destruct (bool_decide _). }
  destruct (gov_run_spec world risk config ps w1' Hv3) as (ds3 & w3' & Hrun3 & Hpost3).
  exists ds1, w1', ds2, w2', ds3, w3'.
  split; [done|]. split; [done|]. split; [done|].
  assert (forall r, r ∈ ps -> exists p, heap w1 !! r = Some p) as Hdom.
  { intros r Hr. apply lookup_lt_is_Some_2.
    unfold valid_refs in Hv1. rewrite Forall_forall in Hv1. by apply Hv1. }
  split; [|split; [|split; [|split; [|split]]]].
  - eapply gov_post_same_but_id; [|exact Hpost1|exact Hpost2].
    intros r Hr. destruct (Hdom r Hr) as [p Hp]. exists p. split; [done|].
    left. by rewrite <- Hheap.
  - eapply gov_post_same_but_id; [|exact Hpost1|exact Hpost3].
    intros r Hr. destruct (Hdom r Hr) as [p Hp]. exists p. split; [done|].
    right. destruct Hpost1 as (_ & _ & Hh & _).
    by rewrite Hh, bool_decide_eq_true_2, Hp.
  - destruct Hpost1 as (_ & _ & Hh1 & _). destruct Hpost2 as (_ & _ & Hh2 & _).
    apply list_eq. intros r. by rewrite Hh1, Hh2, Hheap.
  - destruct Hpost1 as (_ & _ & Hh1 & _). destruct Hpost3 as (_ & _ & Hh3 & _).
    apply list_eq. intros r. rewrite Hh3, Hh1.
    destruct (bool_decide (r ∈ ps)); [|done].
    by destruct (heap w1 !! r).
  - intros i d Hd. destruct Hpost1 as (Hl & Hds & _).
    destruct (lookup_lt_is_Some_2 ps i) as [r Hr].
    { rewrite <- Hl. by eapply lookup_lt_Some. }
    destruct (Hds i r Hr) as (p & _ & Hd'). rewrite Hd' in Hd. by injection Hd as <-.
  - intros i d Hd. destruct Hpost2 as (Hl & Hds & _).
    destruct (lookup_lt_is_Some_2 ps i) as [r Hr].
    { rewrite <- Hl. by eapply lookup_lt_Some. }
    destruct (Hds i r Hr) as (p & _ & Hd'). rewrite Hd' in Hd. by injection Hd as <-.
Qed.
End Determinism.

Lemma governance_deterministic_but_id_witness :
  heap Demo.world = heap Demo.world /\ valid_refs Demo.world Demo.refs /\
  exists ds1 w1' ds3 w3',
    DefaultGovernanceModule.run Demo.refs Demo.state (Demo.risk 30) (Demo.config true)
      Demo.world = (Ok ds1, w1') /\
    DefaultGovernanceModule.run Demo.refs Demo.state (Demo.risk 30) (Demo.config true)
      w1' = (Ok ds3, w3') /\
    Forall2 same_but_id ds1 ds3.
Proof.
  assert (valid_refs Demo.world Demo.refs) as Hv by repeat constructor.
  split; [reflexivity|]. split; [exact Hv|].
  destruct (governance_deterministic_but_id Demo.refs Demo.state (Demo.risk 30)
              (Demo.config true) Demo.world Demo.world eq_refl Hv)
    as (ds1 & w1' & _ & _ & ds3 & w3' & H1 & _ & H3 & _ & Hsame & _).
  by exists ds1, w1', ds3, w3'.
Defined.

(* the claim as stated fails: the second run draws other uuids *)
Lemma governance_twice_ids_differ :
  let run := DefaultGovernanceModule.run Demo.refs Demo.state (Demo.risk 30)
               (Demo.config true) in
  (run Demo.world).1 <> (run (run Demo.world).2).1.
Proof. vm_compute. discriminate. Qed.

Section ActuationFacts.
Context {X : Type}.
Implicit Types (w : World X) (ds : list Decision.t).

Lemma approved_status d :
  approved d = true <-> Decision.status d = ProposalStatus.AUTO_APPROVED.
Proof. unfold approved. by destruct (Decision.status d). Qed.

Lemma act_run_spec world ds : forall w,
  exists cmds,
    DefaultActuationModule.run ds world w =
      (Ok cmds, mkWorld (heap w) (uuid_src w)
                  (length (List.filter approved ds) + uuid_n w)
                  (clock w) (clock_n w) (ext w)) /\
    length cmds = length (List.filter approved ds) /\
    forall j d, List.filter approved ds !! j = Some d ->
      cmds !! j = Some (command_of (uuid_src w (j + uuid_n w)) d).
Proof.
  induction ds as [|d ds IH]; intros w.
  - exists []. split; [by destruct w|]. by split.
  - unfold DefaultActuationModule.run. cbn [for_each List.filter].
    fold (approved d). destruct (approved d) eqn:Ha.
    + set (w1 := mkWorld (heap w) (uuid_src w) (S (uuid_n w)) (clock w) (clock_n w)
                   (ext w)).
      destruct (IH w1) as (cmds & Hrun & Hlen & Hcmds).
      exists (command_of (uuid_src w (uuid_n w)) d :: cmds). split; [|split].
      * mstep. unfold uuid4 at 1. fold w1.
        change (for_each _ ds w1) with (DefaultActuationModule.run ds world w1).
        unfold M in *. rewrite Hrun. cbn.
        by rewrite Nat.add_succ_r.
      * cbn. by rewrite Hlen.
      * intros [|j] d' Hj; cbn in Hj.
        { by injection Hj as <-. }
        etrans; [apply (Hcmds j d' Hj)|]. cbn. by rewrite Nat.add_succ_r.
    + destruct (IH w) as (cmds & Hrun & Hlen & Hcmds).
      exists cmds. split; [|by split].
      mstep. change (for_each _ ds w) with (DefaultActuationModule.run ds world w).
      unfold M in *. by rewrite Hrun.
Qed.
End ActuationFacts.

Section Cardinality.
Context {X : Type}.
Implicit Types (k : t X) (w : World X).

Lemma step_ok_inv k w snap k' w' :
  step (k, w) = (Ok snap, (k', w')) ->
  exists s w7,
    stages (begun k) w = (Ok s, w7) /\
    snap = TickResult.mk (tick_id k + 1) (frame s) (world s) (risk s) (intents s)
             (proposals s) (decisions s) (actuation s) (committed k w7 s) /\
    k' = set_state (tick_id k + 1) (Some (world s)) (audit_chain k ++ committed k w7 s)
           (List.last (map AuditEntry.hash (committed k w7 s)) (prev_hash k)) k /\
    w' = audited 6 w7.
Proof.
  rewrite step_eq. destruct (stages (begun k) w) as [[s|e] w7]; [|discriminate].
  destruct (record (summaries s) (begun k, w7)) as [[es|x] [k6 w6]] eqn:Hrec;
    [|discriminate].
  pose proof (record_ok_inv _ _ _ _ _ Hrec) as Hok.
  rewrite record_ok in Hrec by exact Hok. cbv zeta in Hrec.
  injection Hrec as <- <- <-. intros [= <- <- <-]. by exists s, w7.
Qed.

(* a tick whose audit calls return is one whose records json.dumps takes *)
Lemma step_ok_recordable k w snap k' w' s w7 :
  step (k, w) = (Ok snap, (k', w')) ->
  stages (begun k) w = (Ok s, w7) ->
  recordable (tick_id k + 1) (summaries s) = true.
Proof.
  rewrite step_eq. intros Hstep Hst. rewrite Hst in Hstep.
  destruct (record (summaries s) (begun k, w7)) as [[es|x] [k6 w6]] eqn:Hrec;
    [|discriminate].
  exact (record_ok_inv _ _ _ _ _ Hrec).
Qed.

(** C6: in every tick under the default governance and actuation modules
    there are as many decisions as proposals, in the order of the
    proposals, each decision carrying the id of its proposal; there are as
    many actuation commands as AUTO_APPROVED decisions, and the j-th
    command is the one built for the j-th AUTO_APPROVED decision: its
    payload names that decision's id and proposal id. *)
Theorem tick_cardinalities k w snap k' w' :
  governance_module k = DefaultGovernanceModule.run ->
  actuation_module k = DefaultActuationModule.run ->
  step (k, w) = (Ok snap, (k', w')) ->
  let ps := TickResult.proposals snap in
  let ds := TickResult.decisions snap in
  let cmds := TickResult.actuation snap in
  length ds = length ps /\
  (forall i r, ps !! i = Some r ->
     exists p d, heap w' !! r = Some p /\ ds !! i = Some d /\
                 Decision.proposal_id d = Proposal.id p) /\
  length cmds = length (List.filter approved ds) /\
  (forall j d, List.filter approved ds !! j = Some d ->
     exists c, cmds !! j = Some c /\
       Decision.status d = ProposalStatus.AUTO_APPROVED /\
       ActuationCommand.payload c =
         [("decision_id", PStr (Decision.id d));
          ("proposal_id", PStr (Decision.proposal_id d));
          ("mode", PStr "EXECUTE")]).
Proof.
  intros Hgov Hact Hstep.
  apply step_ok_inv in Hstep as (s & w7 & Hst & -> & -> & ->).
  apply stages_ok in Hst as (w1 & w2 & w3 & w4 & w5 & w6 & _ & _ & _ & _ & _ & H6 & H7).
  destruct s as [frame world risk intents ps ds cmds].
  cbn [governance_module actuation_module begun set_tick_id set_state gov_cfg
       Tick.frame Tick.world Tick.risk Tick.intents Tick.proposals Tick.decisions
       Tick.actuation TickResult.proposals TickResult.decisions TickResult.actuation
       audited heap] in *.
  rewrite Hgov in H6. rewrite Hact in H7.
  pose proof (gov_run_valid _ _ _ _ _ _ _ H6) as Hv.
  destruct (gov_run_spec world risk (gov_cfg k) _ _ Hv)
    as (ds' & w6' & Hrun & Hlen & Hds & Hheap & _).
  rewrite Hrun in H6. injection H6 as -> ->.
  destruct (act_run_spec world ds w6) as (cmds' & Hrun' & Hlen' & Hcmds).
  rewrite Hrun' in H7. injection H7 as -> <-. cbn [heap].
  split; [done|]. split; [|split; [done|]].
  - intros i r Hi. destruct (Hds i r Hi) as (p & Hp & Hd).
    exists (governed risk (gov_cfg k) p),
      (decision_of (uuid_src w5 (i + uuid_n w5)) risk (gov_cfg k) p).
    split; [|by split].
    rewrite Hheap, bool_decide_eq_true_2, Hp; [done|]. by eapply list_elem_of_lookup_2.
  - intros j d Hj. eexists. split; [by apply Hcmds|]. split; [|done].
    apply approved_status.
    apply list_elem_of_lookup_2, list_elem_of_In, filter_In in Hj. tauto.
Qed.
End Cardinality.

Section TickFacts.
Context {X : Type}.
Implicit Types (k : t X) (w : World X).

Lemma stage_fails_raise k w e w' :
  stage_fails (begun k) w e w' -> step (k, w) = (Raise e, (begun k, w')).
Proof. intros Hf. apply stages_raise in Hf. by rewrite step_eq, Hf. Qed.

(* step raises when a stage does, or when an audit call does *)
Lemma step_raise_inv k w e k' w' :
  step (k, w) = (Raise e, (k', w')) <->
  (stage_fails (begun k) w e w' /\ k' = begun k) \/
  (exists s w7, stages (begun k) w = (Ok s, w7) /\
     record (summaries s) (begun k, w7) = (Raise e, (k', w'))).
Proof.
  rewrite step_eq, <- stages_raise.
  destruct (stages (begun k) w) as [[s|e1] w1]; split.
  - destruct (record (summaries s) (begun k, w1)) as [[es|x] [k6 w6]] eqn:Hr;
      [discriminate|].
    intros [= -> -> ->]. right. by exists s, w1.
  - intros [[[=] _]|(s' & w7 & [= <- <-] & ->)]. done.
  - intros [= -> <- ->]. by left.
  - by intros [[[= -> ->] ->]|(s' & w7 & [=] & _)].
Qed.

(** C4: if one of the stages that step() calls raises, step() raises the
    same exception to its caller, no audit entry is appended, the previous
    world state and the previous hash are what they were, and the tick
    counter is one more than before: the increment is the one change left. *)
Theorem failed_tick_commits_nothing k w e w' :
  stage_fails (begun k) w e w' ->
  exists k',
    step (k, w) = (Raise e, (k', w')) /\
    audit_chain k' = audit_chain k /\
    prev_world k' = prev_world k /\
    prev_hash k' = prev_hash k /\
    gov_cfg k' = gov_cfg k /\
    tick_id k' = tick_id k + 1.
Proof.
  intros Hfail. exists (begun k). split; [|done].
  by apply stage_fails_raise.
Qed.

Lemma committed_shape k w7 s :
  exists e1 e2 e3 e4 e5 e6,
    committed k w7 s = [e1; e2; e3; e4; e5; e6] /\
    AuditEntry.kind <$> [e1; e2; e3; e4; e5; e6] =
      ["frame"; "risk"; "intents"; "proposals"; "decisions"; "actuation"] /\
    AuditEntry.payload <$> [e1; e2; e3; e4; e5; e6] = snd <$> summaries s /\
    Forall (fun e => AuditEntry.tick e = tick_id k + 1) [e1; e2; e3; e4; e5; e6].
Proof.
  unfold committed, summaries. cbn [entries_of].
  do 6 eexists. split; [reflexivity|]. split; [reflexivity|]. split; [reflexivity|].
  repeat constructor.
Qed.


Lemma step_ok_tick k w snap k' w' :
  step (k, w) = (Ok snap, (k', w')) -> TickResult.tick snap = tick_id k + 1.
Proof. intros Hstep. by apply step_ok_inv in Hstep as (s & w7 & _ & -> & _). Qed.

Lemma step_tick_id k w : tick_id (step (k, w)).2.1 = tick_id k + 1.
Proof.
  rewrite step_eq. destruct (stages (begun k) w) as [[s|e] w1]; [|done].
  pose proof (record_frame (summaries s) (begun k) w1) as Hf. cbv zeta in Hf.
  destruct (record (summaries s) (begun k, w1)) as [[es|x] [k6 w6]];
    cbn [fst snd] in *; destruct Hf as (Hf & _); (etrans; [|exact Hf]); reflexivity.
Qed.

(** C7 (as the code has it): a new kernel has tick counter 0; every call of
    step(), failed or not, adds exactly one to the counter; a successful
    call returns the new counter as its tick id, so 1 on the first call of
    a new kernel, and one more than the tick id of the call before when
    that call succeeded. *)
Theorem tick_id_counts_calls k w snap k' w' :
  step (k, w) = (Ok snap, (k', w')) ->
  TickResult.tick snap = tick_id k + 1 /\
  tick_id k' = TickResult.tick snap /\
  (forall s p r pol prop g a cfg, tick_id (@__init__ X s p r pol prop g a cfg) = 0) /\
  (forall k0 w0, tick_id (step (k0, w0)).2.1 = tick_id k0 + 1) /\
  (forall snap2 k2 w2,
     step (k', w') = (Ok snap2, (k2, w2)) ->
     TickResult.tick snap2 = TickResult.tick snap + 1).
Proof.
  intros Hstep. pose proof (step_tick_id k w) as Ht. rewrite Hstep in Ht. cbn in Ht.
  apply step_ok_inv in Hstep as (s & w7 & _ & -> & Hk' & ->). cbn.
  split; [done|]. split; [done|]. split; [done|]. split; [apply step_tick_id|].
  intros snap2 k2 w2 Hstep2.
  apply step_ok_inv in Hstep2 as (s2 & w72 & _ & -> & _ & _). cbn. by rewrite Ht.
Qed.
End TickFacts.

Lemma failed_tick_commits_nothing_witness :
  let k := set_tick_id 1 DemoKernel.flaky_kernel in
  stage_fails (begun k) DemoKernel.world (StageFailure "sensor offline") DemoKernel.world /\
  exists k',
    step (k, DemoKernel.world) = (Raise (StageFailure "sensor offline"), (k', DemoKernel.world)) /\
    audit_chain k' = [] /\ prev_world k' = None /\ tick_id k' = 2.
Proof.
  cbv zeta.
  assert (stage_fails (begun (set_tick_id 1 DemoKernel.flaky_kernel)) DemoKernel.world
            (StageFailure "sensor offline") DemoKernel.world) as Hf.
  { apply fails_sensor. reflexivity. }
  split; [exact Hf|].
  destruct (failed_tick_commits_nothing _ _ _ _ Hf) as (k' & Hs & Hc & Hp & _ & _ & Ht).
  exists k'. split; [exact Hs|]. split; [exact Hc|]. split; [exact Hp|]. exact Ht.
Defined.


Lemma tick_id_counts_calls_witness :
  exists snap k' w',
    step (DemoKernel.kernel, DemoKernel.world) = (Ok snap, (k', w')) /\
    TickResult.tick snap = 1 /\ tick_id k' = 1.
Proof.
  assert (is_ok (step (DemoKernel.kernel, DemoKernel.world)).1 = true) as Hok
    by (vm_compute; reflexivity).
  destruct (ok_inv _ Hok) as (snap & [k' w'] & Hstep).
  exists snap, k', w'. split; [exact Hstep|].
  destruct (tick_id_counts_calls _ _ _ _ _ Hstep) as (Ht & Ht' & _).
  split; [exact Ht|]. by rewrite Ht', Ht.
Defined.

(* the claim as stated fails: tick 1 succeeds, tick 2 fails, and the next
   successful call returns 3, two more than the previous successful tick id *)
Lemma tick_gap_after_failed_call :
  let r1 := step (DemoKernel.flaky_kernel, DemoKernel.world) in
  let r2 := step r1.2 in
  let r3 := step r2.2 in
  returned_tick r1.1 = Some 1 /\
  r2.1 = Raise (StageFailure "sensor offline") /\
  returned_tick r3.1 = Some 3.
Proof. vm_compute. by repeat split. Qed.

Section StringFacts.
Lemma string_length_app (s1 s2 : string) :
  String.length (s1 +:+ s2) = (String.length s1 + String.length s2)%nat.
Proof. induction s1 as [|a s1 IH]; [done|]. simpl. by f_equal. Qed.





End StringFacts.

Section LedgerFacts.
Context {X : Type}.
Implicit Types (k : t X) (w : World X) (e : AuditEntry.t) (chain : list AuditEntry.t).

Lemma tip_snoc prev chain e : tip prev (chain ++ [e]) = AuditEntry.hash e.
Proof. unfold tip. rewrite map_app. cbn [map]. apply last_last. Qed.

Lemma tip_cons prev e chain : tip prev (e :: chain) = tip (AuditEntry.hash e) chain.
Proof. unfold tip. cbn [map]. apply last_cons_any. Qed.

Lemma linked_app prev l1 l2 :
  linked prev (l1 ++ l2) <-> linked prev l1 /\ linked (tip prev l1) l2.
Proof.
  revert prev. induction l1 as [|e l1 IH]; intros prev; [cbn; tauto|].
  cbn [app linked]. rewrite IH, tip_cons. tauto.
Qed.

Lemma linked_lookup prev chain :
  linked prev chain ->
  forall i e, chain !! i = Some e ->
    sha256 (raw e) = Ok (AuditEntry.hash e) /\
    match i with
    | O => AuditEntry.prev_hash e = prev
    | S j => exists a, chain !! j = Some a /\ AuditEntry.prev_hash e = AuditEntry.hash a
    end.
Proof.
  revert prev. induction chain as [|a chain IH]; intros prev Hv i e Hi; [done|].
  destruct Hv as (Hh & Hp & Hv).
  destruct i as [|i]; cbn in Hi.
  - injection Hi as <-. by split.
  - destruct (IH _ Hv i e Hi) as [He Hlink]. split; [done|].
    destruct i as [|i].
    + exists a. by split.
    + destruct Hlink as (b & Hb & Hl). exists b. by split.
Qed.



Lemma chained_ledger_inv k : chained k -> ledger_inv k.
Proof.
  induction 1 as [|k w kind payload _ [IHv IHp]|k tick pw _ IH]; [done| |done].
  rewrite audit_run.
  destruct (encodable (PInt (tick_id k)) && encodable (PDict payload)) eqn:Henc; [|done].
  cbv zeta. cbn [fst snd audit_chain prev_hash set_state].
  unfold ledger_inv. cbn [audit_chain prev_hash set_state].
  split; [|by rewrite tip_snoc].
  apply linked_app. split; [done|]. cbn [linked]. rewrite <- IHp.
  split; [|done]. unfold raw, entry_of. cbn.
  by rewrite sha256_run, encodable_raw, Henc.
Qed.

Lemma chained_step k w : chained k -> chained (step (k, w)).2.1.
Proof.
  intros Hk. rewrite step_eq.
  assert (chained (begun k)) as Hb.
  { replace (begun k) with (set_tick_id (tick_id k + 1) (set_prev_world (prev_world k) k))
      by by destruct k. by constructor. }
  destruct (stages (begun k) w) as [[s|e] w7]; [|done].
  pose proof (record_chained (summaries s) (begun k) w7 Hb) as Hr.
  destruct (record (summaries s) (begun k, w7)) as [[es|x] [k6 w6]]; cbn [fst snd] in *;
    [|done].
  replace (set_prev_world (Some (world s)) k6)
    with (set_tick_id (tick_id k6) (set_prev_world (Some (world s)) k6))
    by by destruct k6.
  by constructor.
Qed.
End LedgerFacts.

Section LedgerClaims.
Context {X : Type}.
Implicit Types (k : t X) (w : World X) (e : AuditEntry.t) (chain : list AuditEntry.t).

(** C3: in every chain that appends have built, the first entry's prev_hash
    is the genesis sentinel of 64 characters 0, every later entry's
    prev_hash is the hash of the entry just before it, and every entry's
    hash is the SHA-256 hex digest of the sorted-key JSON dump of its id,
    tick, ts, kind, payload and prev_hash, a dump that json.dumps returns;
    so two entries with the same six fields have the same hash. *)
Theorem audit_chain_linked k :
  chained k ->
  let chain := audit_chain k in
  (forall e, chain !! 0%nat = Some e ->
     AuditEntry.prev_hash e =
       "0000000000000000000000000000000000000000000000000000000000000000") /\
  (forall i a b, chain !! i = Some a -> chain !! S i = Some b ->
     AuditEntry.prev_hash b = AuditEntry.hash a) /\
  (forall i e, chain !! i = Some e ->
     exists s,
       dumps (PDict [("id", PStr (AuditEntry.id e));
                     ("tick", PInt (AuditEntry.tick e));
                     ("ts", PFloat (AuditEntry.ts e));
                     ("kind", PStr (AuditEntry.kind e));
                     ("payload", PDict (AuditEntry.payload e));
                     ("prev_hash", PStr (AuditEntry.prev_hash e))]) = Ok s /\
       AuditEntry.hash e = Hashlib.sha256_hexdigest s) /\
  (forall k2 i j e1 e2,
     chained k2 -> chain !! i = Some e1 -> audit_chain k2 !! j = Some e2 ->
     AuditEntry.id e1 = AuditEntry.id e2 -> AuditEntry.tick e1 = AuditEntry.tick e2 ->
     AuditEntry.ts e1 = AuditEntry.ts e2 -> AuditEntry.kind e1 = AuditEntry.kind e2 ->
     AuditEntry.payload e1 = AuditEntry.payload e2 ->
     AuditEntry.prev_hash e1 = AuditEntry.prev_hash e2 ->
     AuditEntry.hash e1 = AuditEntry.hash e2).
Proof.
  intros Hk. destruct (chained_ledger_inv k Hk) as [Hv _]. cbv zeta.
  pose proof (linked_lookup _ _ Hv) as Hl.
  split; [|split; [|split]].
  - intros e He. by destruct (Hl _ _ He) as [_ ->].
  - intros i a b Ha Hb. destruct (Hl _ _ Hb) as [_ (a' & Ha' & ->)]. congruence.
  - intros i e He. destruct (Hl _ _ He) as [Hh _].
    unfold sha256, raw, raw_of in Hh.
    destruct (dumps _) as [s|x]; [|discriminate]. injection Hh as <-. by exists s.
  - intros k2 i j e1 e2 Hk2 He1 He2 Hid Htick Hts Hkind Hpay Hprev.
    destruct (chained_ledger_inv k2 Hk2) as [Hv2 _].
    destruct (Hl _ _ He1) as [H1 _].
    destruct (linked_lookup _ _ Hv2 _ _ He2) as [H2 _].
    unfold raw in H1, H2. rewrite Hid, Htick, Hts, Hkind, Hpay, Hprev, H2 in H1.
    by injection H1.
Qed.

End LedgerClaims.

Lemma demo_chained : chained DemoLedger.after_tick.1.
Proof. apply chained_step. unfold DemoLedger.kernel. constructor. Qed.

Lemma audit_chain_linked_witness :
  let k := (_audit "frame" [("streams", PDict [])] (DemoLedger.kernel, DemoKernel.world)).2.1 in
  chained k /\
  AuditEntry.prev_hash <$> audit_chain k =
    ["0000000000000000000000000000000000000000000000000000000000000000"] /\
  forall e, audit_chain k !! 0%nat = Some e ->
    AuditEntry.prev_hash e =
      "0000000000000000000000000000000000000000000000000000000000000000".
Proof.
  cbv zeta.
  assert (chained (_audit "frame" [("streams", PDict [])]
                     (DemoLedger.kernel, DemoKernel.world)).2.1) as Hk.
  { apply chained_audit. unfold DemoLedger.kernel. apply chained_init. }
  split; [exact Hk|]. split; [reflexivity|].
  exact (proj1 (audit_chain_linked _ Hk)).
Defined.


#[local] Transparent digest.


Section DefaultModules.
Context {X : Type}.
Implicit Types (w : World X).

Lemma perception_run_inv frame prev w ws w' :
  DefaultPerceptionModule.run frame prev w = (Ok ws, w') ->
  WorldState.tick ws = SensorFrame.tick frame /\
  WorldState.ts ws = SensorFrame.ts frame /\ w' = w.
Proof.
  unfold DefaultPerceptionModule.run. mstep.
  repeat (match goal with
          | |- context [match ?r with Ok _ => _ | Raise _ => _ end] =>
              destruct r; [|discriminate]
          end).
  by intros [= <- <-].
Qed.

Lemma risk_run_inv world w r w' :
  DefaultRiskModule.run world w = (Ok r, w') ->
  RiskReport.tick r = WorldState.tick world /\
  RiskReport.ts r = WorldState.ts world /\ w' = w.
Proof.
  unfold DefaultRiskModule.run. mstep.
  repeat (match goal with
          | |- context [match ?r with Ok _ => _ | Raise _ => _ end] =>
              destruct r; [|discriminate]
          end).
  by intros [= <- <-].
Qed.

Lemma policy_run_spec world risk w :
  exists intents w',
    DefaultPolicyModule.run world risk w = (Ok intents, w') /\
    heap w' = heap w /\ ext w' = ext w /\ clock w' = clock w /\ clock_n w' = clock_n w.
Proof.
  unfold DefaultPolicyModule.run. mstep. unfold uuid4.
  cbn [heap uuid_src uuid_n clock clock_n ext].
  destruct (RiskReport.level risk); eexists _, _; (split; [reflexivity|]); done.
Qed.

Lemma policy_run_length world risk w intents w' :
  DefaultPolicyModule.run world risk w = (Ok intents, w') -> (length intents <= 3)%nat.
Proof.
  unfold DefaultPolicyModule.run. mstep. unfold uuid4.
  cbn [heap uuid_src uuid_n clock clock_n ext].
  destruct (RiskReport.level risk); intros [= <- _]; cbn; lia.
Qed.

Lemma proposal_run_spec world risk intents : forall w,
  exists props,
    DefaultProposalModule.run intents world risk w =
      (Ok (seq (length (heap w)) (length intents)),
       mkWorld (heap w ++ props) (uuid_src w) (length intents + uuid_n w) (clock w)
         (clock_n w) (ext w)) /\
    length props = length intents /\
    forall i intent, intents !! i = Some intent ->
      exists p, props !! i = Some p /\
                fresh_proposal world (uuid_src w (i + uuid_n w)) intent p.
Proof.
  induction intents as [|intent intents IH]; intros w.
  - exists []. rewrite app_nil_r. split; [by destruct w|]. by split.
  - unfold DefaultProposalModule.run. cbn [for_each].
    change (for_each _ intents) with (@DefaultProposalModule.run X intents world risk).
    cbv beta zeta.
    destruct (if String.eqb _ "CONTINUE" then _ else _) as [action bounds].
    mstep. unfold uuid4 at 1, alloc at 1. unfold with_heap.
    cbn [heap uuid_src uuid_n clock clock_n ext].
    match goal with |- context [heap w ++ [?q]] => set (p := q) end.
    set (w1 := mkWorld (heap w ++ [p]) (uuid_src w) (S (uuid_n w)) (clock w) (clock_n w)
                 (ext w)).
    destruct (IH w1) as (props & Hrun & Hlen & Hprops).
    exists (p :: props). split; [|split].
    + unfold M in *. rewrite Hrun. cbn [heap uuid_src uuid_n clock clock_n ext w1].
      rewrite length_app, <- app_assoc. cbn [length app].
      by rewrite Nat.add_1_r, Nat.add_succ_r.
    + cbn. by rewrite Hlen.
    + intros [|i] it Hi; cbn in Hi.
      { injection Hi as <-. by exists p. }
      destruct (Hprops i it Hi) as (q & Hq & Hf). exists q. split; [done|].
      cbn in Hf. by rewrite Nat.add_succ_r in Hf.
Qed.
End DefaultModules.

Section DefaultWiring.
Implicit Types (k : t Rng) (w : World Rng).

Lemma sensor_read_spec tick prev w :
  exists a b c w',
    SyntheticSensorAdapter.read tick prev w =
      (Ok (SensorFrame.mk tick (clock w (clock_n w))
             [("ops", PDict [("system_load", PFloat a); ("env_stress", PFloat b);
                             ("comms_quality", PFloat c)])]), w') /\
    heap w' = heap w.
Proof.
  unfold SyntheticSensorAdapter.read, SyntheticSensorAdapter.rng_random, time_time, with_ext.
  mstep. cbn [heap uuid_src uuid_n clock clock_n ext draws draw_n].
  do 4 eexists. split; [reflexivity|]. reflexivity.
Qed.

Lemma commands_tick (ds : list Decision.t) (cmds : list ActuationCommand.t) u n N :
  length cmds = length (List.filter approved ds) ->
  (forall j d, List.filter approved ds !! j = Some d ->
     cmds !! j = Some (command_of (u (j + n)%nat) d)) ->
  Forall (fun d => Decision.tick d = N) ds ->
  Forall (fun c => ActuationCommand.tick c = N) cmds.
Proof.
  intros Hlen Hcmds Hds. apply Forall_lookup_2. intros j c Hc.
  destruct (lookup_lt_is_Some_2 (List.filter approved ds) j) as [d Hd].
  { rewrite <- Hlen. by eapply lookup_lt_Some. }
  rewrite (Hcmds j d Hd) in Hc. injection Hc as <-. cbn.
  rewrite Forall_forall in Hds. apply Hds.
  apply list_elem_of_lookup_2, list_elem_of_In, filter_In in Hd.
  apply list_elem_of_In. tauto.
Qed.

(* the default modules stamp the tick they are handed on what they build *)
Lemma default_snapshot_ticks k w snap k' w' :
  by_default k ->
  step (k, w) = (Ok snap, (k', w')) ->
  let N := TickResult.tick snap in
  SensorFrame.tick (TickResult.sensor_frame snap) = N /\
  WorldState.tick (TickResult.world snap) = N /\
  RiskReport.tick (TickResult.risk snap) = N /\
  (forall r, r ∈ TickResult.proposals snap ->
     exists p, heap w' !! r = Some p /\ Proposal.tick p = N) /\
  Forall (fun d => Decision.tick d = N) (TickResult.decisions snap) /\
  Forall (fun c => ActuationCommand.tick c = N) (TickResult.actuation snap) /\
  Forall (fun e => AuditEntry.tick e = N) (TickResult.audit_entries snap) /\
  length (TickResult.audit_entries snap) = 6%nat /\
  audit_chain k' = audit_chain k ++ TickResult.audit_entries snap.
Proof.
  intros (Hs & Hp & Hr & Hpol & Hprop & Hgov & Hact) Hstep.
  apply step_ok_inv in Hstep as (s & w7 & Hst & -> & -> & ->).
  apply stages_ok in Hst as (w1 & w2 & w3 & w4 & w5 & w6 & H1 & H2 & H3 & H4 & H5 & H6 & H7).
  destruct s as [frame world risk intents ps ds cmds].
  cbn [sensor perception risk_module policy_module proposal_module governance_module
       actuation_module begun set_tick_id set_state gov_cfg tick_id prev_world
       Tick.frame Tick.world Tick.risk Tick.intents Tick.proposals Tick.decisions
       Tick.actuation TickResult.proposals TickResult.decisions TickResult.actuation
       TickResult.tick TickResult.sensor_frame TickResult.world TickResult.risk
       TickResult.audit_entries audit_chain audited heap] in *.
  rewrite Hs in H1. rewrite Hp in H2. rewrite Hr in H3. rewrite Hprop in H5.
  rewrite Hgov in H6. rewrite Hact in H7. cbv zeta.
  destruct (sensor_read_spec (tick_id k + 1) (prev_world k) w)
    as (a & b & c & w1' & Hread & _).
  rewrite Hread in H1. injection H1 as <- <-.
  apply perception_run_inv in H2 as (Hwt & _ & ->). cbn in Hwt.
  apply risk_run_inv in H3 as (Hrt & _ & ->).
  destruct (proposal_run_spec world risk intents w4) as (props & Hrun5 & Hlen5 & Hprops).
  rewrite Hrun5 in H5. injection H5 as <- <-.
  pose proof (gov_run_valid _ _ _ _ _ _ _ H6) as Hv.
  destruct (gov_run_spec world risk (gov_cfg k) _ _ Hv)
    as (ds' & w6' & Hrun6 & Hlen6 & Hds & Hheap & _).
  rewrite Hrun6 in H6. injection H6 as -> ->.
  destruct (act_run_spec world ds w6) as (cmds' & Hrun7 & Hlen7 & Hcmds).
  rewrite Hrun7 in H7. injection H7 as -> <-. cbn [heap] in *.
  assert (forall r, r ∈ seq (length (heap w4)) (length intents) ->
            exists p, (heap w4 ++ props) !! r = Some p /\
                      Proposal.tick p = tick_id k + 1) as Hfresh.
  { intros r Hin. apply elem_of_seq in Hin as [Hr1 Hr2].
    destruct (lookup_lt_is_Some_2 intents (r - length (heap w4))) as [it Hit]; [lia|].
    destruct (Hprops _ _ Hit) as (p & Hp' & _ & Htick & _).
    exists p. split; [|congruence].
    rewrite lookup_app_r by lia. done. }
  assert (Forall (fun d => Decision.tick d = tick_id k + 1) ds) as Hdt.
  { apply Forall_lookup_2. intros i d Hd.
    destruct (lookup_lt_is_Some_2 (seq (length (heap w4)) (length intents)) i) as [r Hi].
    { rewrite <- Hlen6. by eapply lookup_lt_Some. }
    destruct (Hds i r Hi) as (p & Hp' & Hd'). rewrite Hd' in Hd. injection Hd as <-.
    destruct (Hfresh r) as (p' & Hp'' & Ht); [by eapply list_elem_of_lookup_2|].
    cbn. congruence. }
  destruct (committed_shape k
              (mkWorld (heap w6) (uuid_src w6)
                 (length (List.filter approved ds) + uuid_n w6)
                 (clock w6) (clock_n w6) (ext w6))
              (Tick.mk (SensorFrame.mk (tick_id k + 1) (clock w (clock_n w))
                          [("ops", PDict [("system_load", PFloat a);
                                          ("env_stress", PFloat b);
                                          ("comms_quality", PFloat c)])])
                 world risk intents (seq (length (heap w4)) (length intents)) ds cmds))
    as (e1 & e2 & e3 & e4 & e5 & e6 & -> & _ & _ & Hticks).
  split; [done|]. split; [done|]. split; [congruence|].
  split; [|split; [done|split; [|by split]]].
  - intros r Hin. destruct (Hfresh r Hin) as (p & Hp' & Ht).
    exists (governed risk (gov_cfg k) p). split; [|done].
    by rewrite Hheap, bool_decide_eq_true_2, Hp'.
  - by eapply commands_tick.
Qed.

Lemma by_default_wiring cfg : by_default (default_wiring cfg).
Proof. by repeat split. Qed.

(** C10 (as the code has it): a successful step() returns a snapshot for
    tick N, the counter after the call; the six audit entries carry N and
    are exactly the entries just appended, the last six of the chain in its
    order, whatever modules are plugged in.  The sensor frame, the world
    state, the risk report, the proposals, the decisions and the actuation
    commands carry the tick that the modules stamped on them: with the
    default modules that is N for every one of them. *)
Theorem snapshot_carries_tick k w snap k' w' :
  step (k, w) = (Ok snap, (k', w')) ->
  let N := TickResult.tick snap in
  N = tick_id k + 1 /\ tick_id k' = N /\
  Forall (fun e => AuditEntry.tick e = N) (TickResult.audit_entries snap) /\
  length (TickResult.audit_entries snap) = 6%nat /\
  audit_chain k' = audit_chain k ++ TickResult.audit_entries snap /\
  (by_default k ->
     SensorFrame.tick (TickResult.sensor_frame snap) = N /\
     WorldState.tick (TickResult.world snap) = N /\
     RiskReport.tick (TickResult.risk snap) = N /\
     (forall r, r ∈ TickResult.proposals snap ->
        exists p, heap w' !! r = Some p /\ Proposal.tick p = N) /\
     Forall (fun d => Decision.tick d = N) (TickResult.decisions snap) /\
     Forall (fun c => ActuationCommand.tick c = N) (TickResult.actuation snap)).
Proof.
  intros Hstep. cbv zeta. split; [|split; [|split; [|split; [|split]]]].
  - by eapply step_ok_tick.
  - pose proof (step_tick_id k w) as Ht. rewrite Hstep in Ht. cbn [fst snd] in Ht.
    rewrite Ht. symmetry. by eapply step_ok_tick.
  - apply step_ok_inv in Hstep as (s & w7 & _ & -> & _).
    by destruct (committed_shape k w7 s) as (e1 & e2 & e3 & e4 & e5 & e6 & -> & _ & _ & Ht).
  - apply step_ok_inv in Hstep as (s & w7 & _ & -> & _).
    by destruct (committed_shape k w7 s) as (e1 & e2 & e3 & e4 & e5 & e6 & -> & _).
  - by apply step_ok_inv in Hstep as (s & w7 & _ & -> & -> & _).
  - intros Hd.
    destruct (default_snapshot_ticks _ _ _ _ _ Hd Hstep)
      as (H1 & H2 & H3 & H4 & H5 & H6 & _).
    by repeat split.
Qed.
End DefaultWiring.

Lemma snapshot_carries_tick_witness :
  by_default DemoKernel.kernel /\
  exists snap k' w',
    step (DemoKernel.kernel, DemoKernel.world) = (Ok snap, (k', w')) /\
    TickResult.tick snap = 1 /\
    WorldState.tick (TickResult.world snap) = 1 /\
    length (TickResult.audit_entries snap) = 6%nat.
Proof.
  split; [apply by_default_wiring|].
  assert (is_ok (step (DemoKernel.kernel, DemoKernel.world)).1 = true) as Hok
    by (vm_compute; reflexivity).
  destruct (ok_inv _ Hok) as (snap & [k' w'] & Hstep).
  exists snap, k', w'. split; [exact Hstep|].
  destruct (snapshot_carries_tick _ _ _ _ _ Hstep) as (Ht & _ & _ & Hlen & _ & Hdef).
  destruct (Hdef (by_default_wiring _)) as (_ & Hw & _).
  split; [exact Ht|]. split; [by rewrite Hw|exact Hlen].
Defined.

(* the claim as stated fails: a sensor adapter that stamps its frames with
   tick 0 is as good a SensorAdapter as any; the snapshot of the first tick
   has tick 1, and its frame, world state, risk report, proposal, decision
   and actuation command all carry tick 0 *)
Lemma stale_sensor_snapshot :
  let r := step (DemoStale.kernel, DemoKernel.world) in
  returned_tick r.1 = Some 1 /\
  match r.1 with
  | Ok snap =>
      SensorFrame.tick (TickResult.sensor_frame snap) = 0 /\
      WorldState.tick (TickResult.world snap) = 0 /\
      RiskReport.tick (TickResult.risk snap) = 0 /\
      (fun p => Proposal.tick <$> heap r.2.2 !! p) <$> TickResult.proposals snap = [Some 0] /\
      Decision.tick <$> TickResult.decisions snap = [0] /\
      ActuationCommand.tick <$> TickResult.actuation snap = [0] /\
      AuditEntry.tick <$> TickResult.audit_entries snap = [1; 1; 1; 1; 1; 1]
  | Raise _ => False
  end.
Proof. vm_compute. by repeat split. Qed.

Lemma tick_cardinalities_witness :
  governance_module DemoKernel.kernel = DefaultGovernanceModule.run /\
  actuation_module DemoKernel.kernel = DefaultActuationModule.run /\
  exists snap k' w',
    step (DemoKernel.kernel, DemoKernel.world) = (Ok snap, (k', w')) /\
    length (TickResult.decisions snap) = length (TickResult.proposals snap).
Proof.
  split; [reflexivity|]. split; [reflexivity|].
  assert (is_ok (step (DemoKernel.kernel, DemoKernel.world)).1 = true) as Hok
    by (vm_compute; reflexivity).
  destruct (ok_inv _ Hok) as (snap & [k' w'] & Hstep).
  exists snap, k', w'. split; [exact Hstep|].
  by destruct (tick_cardinalities DemoKernel.kernel _ _ _ _ eq_refl eq_refl Hstep) as (Hlen & _).
Defined.

(** * Further properties of the code *)

#[local] Opaque digest.

Section DefaultTick.
Implicit Types (k : t Rng) (w : World Rng).

Lemma perception_synthetic_ok tick ts a b c prev w :
  exists ws,
    DefaultPerceptionModule.run
      (SensorFrame.mk tick ts
         [("ops", PDict [("system_load", PFloat a); ("env_stress", PFloat b);
                         ("comms_quality", PFloat c)])]) prev w = (Ok ws, w) /\
    exists x y, WorldState.health ws =
      [("compute", PFloat x); ("environment", PFloat y); ("comms", PFloat c)].
Proof. eexists. split; [reflexivity|]. by eexists _, _. Qed.

Lemma risk_float_health_ok world x y z w :
  WorldState.health world =
    [("compute", PFloat x); ("environment", PFloat y); ("comms", PFloat z)] ->
  exists r, DefaultRiskModule.run world w = (Ok r, w).
Proof.
  intros Hh. unfold DefaultRiskModule.run. rewrite Hh. eexists. reflexivity.
Qed.

(* the digit limit of int repr, as arithmetic *)
Lemma int_limit_eq : PyFloat.int_limit = 10 ^ PyFloat.max_str_digits.
Proof. vm_compute. reflexivity. Qed.

Lemma encodable_int z :
  encodable (PInt z) = true <-> Z.abs z < 10 ^ PyFloat.max_str_digits.
Proof.
  rewrite <- int_limit_eq. cbn [encodable]. unfold PyFloat.int_repr.
  destruct (Z.ltb_spec (Z.abs z) PyFloat.int_limit); cbn [is_ok]; split;
    first [done | lia].
Qed.

Lemma small_count_encodable {A} (xs : list A) :
  (length xs <= 3)%nat -> encodable (PDict (count xs)) = true.
Proof.
  intros Hlen. unfold count. cbn [encodable forallb snd]. rewrite andb_true_r.
  change (encodable (PInt (Z.of_nat (length xs))) = true). apply encodable_int.
  assert (3 < 10 ^ PyFloat.max_str_digits) as Hlim
    by (rewrite <- int_limit_eq; reflexivity).
  lia.
Qed.

(* with the default modules the seven stages return, and json.dumps takes
   their six summaries: streams of floats, a float and a level name, and
   four counts of at most three *)
Lemma default_stages_ok k w :
  by_default k ->
  exists s w7, stages k w = (Ok s, w7) /\
    forall tick, recordable tick (summaries s) = encodable (PInt tick).
Proof.
  intros (Hs & Hp & Hr & Hpol & Hprop & Hgov & Hact).
  destruct (sensor_read_spec (tick_id k) (prev_world k) w) as (a & b & c & w1 & H1 & _).
  destruct (perception_synthetic_ok (tick_id k) (clock w (clock_n w)) a b c
              (prev_world k) w1) as (ws & H2 & x & y & Hh).
  destruct (risk_float_health_ok ws x y c w1 Hh) as (r & H3).
  destruct (policy_run_spec ws r w1) as (intents & w4 & H4 & _).
  pose proof (policy_run_length _ _ _ _ _ H4) as Hl4.
  destruct (proposal_run_spec ws r intents w4) as (props & H5 & Hlen & _).
  set (ps := seq (length (heap w4)) (length intents)) in *.
  set (w5 := mkWorld (heap w4 ++ props) (uuid_src w4) (length intents + uuid_n w4)
               (clock w4) (clock_n w4) (ext w4)) in *.
  assert (valid_refs w5 ps) as Hv.
  { apply Forall_forall. intros r' Hr'. unfold ps in Hr'. apply elem_of_seq in Hr'.
    cbn. rewrite length_app. lia. }
  destruct (gov_run_spec ws r (gov_cfg k) ps w5 Hv) as (ds & w6 & H6 & Hl6 & _).
  destruct (act_run_spec ws ds w6) as (cmds & H7 & Hl7 & _).
  eexists (Tick.mk _ ws r intents ps ds cmds), _. split.
  - apply stages_ok. cbn [Tick.frame Tick.world Tick.risk Tick.intents Tick.proposals
                          Tick.decisions Tick.actuation].
    exists w1, w1, w1, w4, w5, w6.
    rewrite Hs, Hp, Hr, Hpol, Hprop, Hgov, Hact. by repeat split.
  - intros tick. unfold recordable, summaries.
    cbn [forallb snd Tick.frame Tick.risk Tick.intents Tick.proposals Tick.decisions
         Tick.actuation SensorFrame.streams].
    assert (length ps <= 3)%nat as Hlp by (unfold ps; rewrite length_seq; lia).
    assert (length ds <= 3)%nat as Hld by lia.
    assert (length cmds <= 3)%nat as Hlc.
    { rewrite Hl7. pose proof (List.filter_length_le approved ds). lia. }
    rewrite !small_count_encodable by done.
    destruct (encodable (PInt tick)); reflexivity.
Qed.

Lemma default_step_ok k w :
  by_default k -> encodable (PInt (tick_id k + 1)) = true ->
  exists snap k' w', step (k, w) = (Ok snap, (k', w')).
Proof.
  intros Hk Hfit. rewrite step_eq.
  destruct (default_stages_ok (begun k) w) as (s & w7 & -> & Hrec); [by destruct k|].
  rewrite record_ok by (rewrite Hrec; exact Hfit).
  cbv zeta. by eexists _, _, _.
Qed.

Lemma default_step_overflow k w :
  by_default k -> encodable (PInt (tick_id k + 1)) = false ->
  exists w', step (k, w) = (Raise ValueError, (begun k, w')).
Proof.
  intros Hk Hfit. rewrite step_eq.
  destruct (default_stages_ok (begun k) w) as (s & w7 & -> & _); [by destruct k|].
  unfold summaries. rewrite record_first_raises; [by eexists|].
  cbn [tick_id begun set_tick_id set_state]. by rewrite Hfit.
Qed.

(** X1: with the default modules step() returns whenever the new tick id
    has at most 4300 decimal digits: whatever the state of the kernel, the
    clock, the uuid source and the random source, every stage and every
    audit call returns and step() hands back a snapshot with the next tick
    id.  Past that limit json.dumps raises ValueError in the first audit
    call: step() raises it, nothing is appended, and the counter has
    advanced. *)
Theorem default_step_returns k w :
  by_default k ->
  (Z.abs (tick_id k + 1) < 10 ^ PyFloat.max_str_digits ->
     exists snap k' w',
       step (k, w) = (Ok snap, (k', w')) /\ TickResult.tick snap = tick_id k + 1) /\
  (10 ^ PyFloat.max_str_digits <= Z.abs (tick_id k + 1) ->
     exists k' w',
       step (k, w) = (Raise ValueError, (k', w')) /\
       audit_chain k' = audit_chain k /\ prev_hash k' = prev_hash k /\
       prev_world k' = prev_world k /\ tick_id k' = tick_id k + 1).
Proof.
  intros Hk. split; intros Hfit.
  - apply encodable_int in Hfit.
    destruct (default_step_ok k w Hk Hfit) as (snap & k' & w' & Hstep).
    exists snap, k', w'. split; [done|]. by eapply step_ok_tick.
  - assert (encodable (PInt (tick_id k + 1)) = false) as Hno.
    { apply not_true_is_false. rewrite encodable_int. lia. }
    destruct (default_step_overflow k w Hk Hno) as (w' & Hstep).
    by exists (begun k), w'.
Qed.
End DefaultTick.

Lemma default_step_returns_witness :
  by_default DemoKernel.kernel /\
  Z.abs (tick_id DemoKernel.kernel + 1) < 10 ^ PyFloat.max_str_digits /\
  exists snap k' w',
    step (DemoKernel.kernel, DemoKernel.world) = (Ok snap, (k', w')) /\
    TickResult.tick snap = 1.
Proof.
  assert (Z.abs (tick_id DemoKernel.kernel + 1) < 10 ^ PyFloat.max_str_digits) as Hfit
    by (rewrite <- int_limit_eq; reflexivity).
  split; [apply by_default_wiring|]. split; [exact Hfit|].
  exact (proj1 (default_step_returns DemoKernel.kernel DemoKernel.world
                  (by_default_wiring _)) Hfit).
Defined.

Section GateExtras.
Context {X : Type}.
Implicit Types (k : t X) (w : World X) (p : Proposal.t) (ps : list ref).

Lemma gate_status_iff p risk config :
  let score := RiskReport.score risk in
  let kind := Proposal.source_intent p in
  let status := (gate p risk config).1 in
  (status = ProposalStatus.BLOCKED <->
     float_le (GovernanceConfig.hard_block_risk config) score) /\
  (status = ProposalStatus.AUTO_APPROVED <->
     ~ float_le (GovernanceConfig.hard_block_risk config) score /\
     GovernanceConfig.gate_open config = true /\
     ~ float_lt (GovernanceConfig.max_auto_risk config) score /\
     kind ∉ GovernanceConfig.require_human_for config) /\
  (status = ProposalStatus.REQUIRES_HUMAN <->
     ~ float_le (GovernanceConfig.hard_block_risk config) score /\
     (GovernanceConfig.gate_open config = false \/
      float_lt (GovernanceConfig.max_auto_risk config) score \/
      kind ∈ GovernanceConfig.require_human_for config)).
Proof.
  cbv zeta. unfold gate, float_le, float_lt.
  destruct (PrimFloat.leb _ _) eqn:Hb; [cbn; intuition congruence|].
  destruct (GovernanceConfig.gate_open config) eqn:Hg; cbn [negb];
    [|cbn; intuition congruence].
  destruct (PrimFloat.ltb _ _) eqn:Hm; cbn [orb]; [cbn; intuition congruence|].
  destruct (str_in _ _) eqn:Hin; cbn.
  - apply str_in_elem_of in Hin. intuition congruence.
  - assert (Proposal.source_intent p ∉ GovernanceConfig.require_human_for config) as Hn.
    { intros Hc%str_in_elem_of. congruence. }
    intuition congruence.
Qed.

(** X4: the status of a decision tells the condition that produced it:
    BLOCKED exactly when the risk score is >= hard_block_risk;
    AUTO_APPROVED exactly when it is not, the gate is open, the score is
    not > max_auto_risk and the intent kind is not in require_human_for;
    REQUIRES_HUMAN exactly in the remaining cases. *)
Theorem decision_status_iff ps world risk config w :
  valid_refs w ps ->
  exists ds w',
    DefaultGovernanceModule.run ps world risk config w = (Ok ds, w') /\
    forall i r p d,
      ps !! i = Some r -> heap w !! r = Some p -> ds !! i = Some d ->
      let score := RiskReport.score risk in
      let kind := Proposal.source_intent p in
      let status := Decision.status d in
      (status = ProposalStatus.BLOCKED <->
         float_le (GovernanceConfig.hard_block_risk config) score) /\
      (status = ProposalStatus.AUTO_APPROVED <->
         ~ float_le (GovernanceConfig.hard_block_risk config) score /\
         GovernanceConfig.gate_open config = true /\
         ~ float_lt (GovernanceConfig.max_auto_risk config) score /\
         kind ∉ GovernanceConfig.require_human_for config) /\
      (status = ProposalStatus.REQUIRES_HUMAN <->
         ~ float_le (GovernanceConfig.hard_block_risk config) score /\
         (GovernanceConfig.gate_open config = false \/
          float_lt (GovernanceConfig.max_auto_risk config) score \/
          kind ∈ GovernanceConfig.require_human_for config)).
Proof.
  intros Hv.
  destruct (gov_run_spec world risk config ps w Hv) as (ds & w' & Hrun & Hlen & Hds & _).
  exists ds, w'. split; [done|].
  intros i r p d Hi Hp Hd.
  destruct (Hds i r Hi) as (p' & Hp' & Hd').
  assert (p' = p) as -> by congruence.
  assert (d = decision_of (uuid_src w (i + uuid_n w)) risk config p) as -> by congruence.
  apply gate_status_iff.
Qed.
End GateExtras.

Lemma decision_status_iff_witness :
  valid_refs Demo.world Demo.refs /\
  exists ds w',
    DefaultGovernanceModule.run Demo.refs Demo.state (Demo.risk 30) (Demo.config false)
      Demo.world = (Ok ds, w').
Proof.
  assert (valid_refs Demo.world Demo.refs) as Hv by repeat constructor.
  split; [exact Hv|].
  destruct (decision_status_iff Demo.refs Demo.state (Demo.risk 30) (Demo.config false)
              Demo.world Hv) as (ds & w' & Hrun & _).
  by exists ds, w'.
Defined.

Section NoActuation.
Context {X : Type}.
Implicit Types (k : t X) (w : World X).

Lemma filter_approved_nil (ds : list Decision.t) :
  Forall (fun d => Decision.status d <> ProposalStatus.AUTO_APPROVED) ds ->
  List.filter approved ds = [].
Proof.
  induction 1 as [|d ds Hd _ IH]; [done|]. cbn.
  destruct (approved d) eqn:Ha; [|done]. by apply approved_status in Ha.
Qed.

(** X2: under the default governance and actuation modules, a tick whose
    gate switch is closed, or whose risk score is >= hard_block_risk,
    actuates nothing: the snapshot holds no actuation command, every
    decision has the operator HUMAN?, and the actuation entry of the ledger
    records the count 0. *)
Theorem closed_gate_actuates_nothing k w snap k' w' :
  governance_module k = DefaultGovernanceModule.run ->
  actuation_module k = DefaultActuationModule.run ->
  step (k, w) = (Ok snap, (k', w')) ->
  GovernanceConfig.gate_open (gov_cfg k) = false \/
    float_le (GovernanceConfig.hard_block_risk (gov_cfg k))
      (RiskReport.score (TickResult.risk snap)) ->
  TickResult.actuation snap = [] /\
  Forall (fun d => Decision.operator d = "HUMAN?" /\
                   Decision.status d <> ProposalStatus.AUTO_APPROVED)
    (TickResult.decisions snap) /\
  AuditEntry.payload <$> last (audit_chain k') = Some [("count", PInt 0)].
Proof.
  intros Hgov Hact Hstep Hshut.
  apply step_ok_inv in Hstep as (s & w7 & Hst & -> & -> & ->).
  apply stages_ok in Hst as (w1 & w2 & w3 & w4 & w5 & w6 & _ & _ & _ & _ & _ & H6 & H7).
  destruct s as [frame world risk intents ps ds cmds].
  cbn [governance_module actuation_module begun set_tick_id set_state gov_cfg
       Tick.frame Tick.world Tick.risk Tick.intents Tick.proposals Tick.decisions
       Tick.actuation TickResult.proposals TickResult.decisions TickResult.actuation
       TickResult.risk audit_chain] in *.
  rewrite Hgov in H6. rewrite Hact in H7.
  pose proof (gov_run_valid _ _ _ _ _ _ _ H6) as Hv.
  destruct (gov_run_spec world risk (gov_cfg k) _ _ Hv)
    as (ds' & w6' & Hrun & Hlen & Hds & _).
  rewrite Hrun in H6. injection H6 as -> ->.
  assert (Forall (fun d => Decision.operator d = "HUMAN?" /\
                           Decision.status d <> ProposalStatus.AUTO_APPROVED) ds) as Hall.
  { apply Forall_lookup_2. intros i d Hd.
    destruct (lookup_lt_is_Some_2 ps i) as [r Hr].
    { rewrite <- Hlen. by eapply lookup_lt_Some. }
    destruct (Hds i r Hr) as (p & _ & Hd'). rewrite Hd' in Hd. injection Hd as <-.
    assert ((gate p risk (gov_cfg k)).1 <> ProposalStatus.AUTO_APPROVED) as Hne.
    { intros Heq. apply gate_status_iff in Heq as (Hnb & Hopen & _).
      destruct Hshut as [Hshut|Hshut]; [congruence|done]. }
    split; [|done]. cbn. by destruct (gate p risk (gov_cfg k)).1. }
  assert (List.filter approved ds = []) as Hnil.
  { apply filter_approved_nil. eapply Forall_impl; [exact Hall|]. by intros d [_ ?]. }
  destruct (act_run_spec world ds w6) as (cmds' & Hrun' & Hlen' & _).
  rewrite Hrun' in H7. injection H7 as -> <-.
  rewrite Hnil in Hlen'. destruct cmds as [|c cmds]; [|done].
  split; [done|]. split; [done|].
  unfold committed, summaries. cbn [entries_of]. by rewrite last_app.
Qed.

(** X3: the six audit entries of a successful tick record what the
    snapshot holds: the streams of the sensor frame, the score and the
    level name of the risk report, and the numbers of intents, proposals,
    decisions and actuation commands. *)
Theorem audit_entries_summarise_snapshot k w snap k' w' :
  step (k, w) = (Ok snap, (k', w')) ->
  AuditEntry.payload <$> TickResult.audit_entries snap =
    [ [("streams", PDict (SensorFrame.streams (TickResult.sensor_frame snap)))];
      [("score", PFloat (RiskReport.score (TickResult.risk snap)));
       ("level", PStr (RiskLevel.name (RiskReport.level (TickResult.risk snap))))];
      [("count", PInt (Z.of_nat (length (TickResult.intents snap))))];
      [("count", PInt (Z.of_nat (length (TickResult.proposals snap))))];
      [("count", PInt (Z.of_nat (length (TickResult.decisions snap))))];
      [("count", PInt (Z.of_nat (length (TickResult.actuation snap))))] ].
Proof.
  intros Hstep. by apply step_ok_inv in Hstep as (s & w7 & _ & -> & _).
Qed.
End NoActuation.

Lemma closed_gate_actuates_nothing_witness :
  let k := default_wiring None in
  governance_module k = DefaultGovernanceModule.run /\
  actuation_module k = DefaultActuationModule.run /\
  GovernanceConfig.gate_open (gov_cfg k) = false /\
  exists snap k' w',
    step (k, DemoKernel.world) = (Ok snap, (k', w')) /\ TickResult.actuation snap = [].
Proof.
  cbv zeta. split; [reflexivity|]. split; [reflexivity|]. split; [reflexivity|].
  destruct (default_step_ok (default_wiring None) DemoKernel.world (by_default_wiring _)
              eq_refl)
    as (snap & k' & w' & Hstep).
  exists snap, k', w'. split; [exact Hstep|].
  by destruct (closed_gate_actuates_nothing (default_wiring None) _ _ _ _ eq_refl eq_refl
                 Hstep (or_introl eq_refl)) as [? _].
Defined.

Lemma audit_entries_summarise_snapshot_witness :
  exists snap k' w',
    step (DemoKernel.kernel, DemoKernel.world) = (Ok snap, (k', w')) /\
    length (AuditEntry.payload <$> TickResult.audit_entries snap) = 6%nat.
Proof.
  destruct (default_step_ok DemoKernel.kernel DemoKernel.world (by_default_wiring _)
              eq_refl)
    as (snap & k' & w' & Hstep).
  exists snap, k', w'. split; [exact Hstep|].
  by rewrite (audit_entries_summarise_snapshot _ _ _ _ _ Hstep).
Defined.

Section NanScore.
Context {X : Type}.
Implicit Types (w : World X) (p : Proposal.t) (ps : list ref).

Lemma leb_nan_r a score : is_nan score = true -> PrimFloat.leb a score = false.
Proof.
  intros Hn. rewrite leb_spec. unfold Prim2SF at 2. rewrite Hn.
  unfold SFleb, SFcompare. by destruct (Prim2SF a).
Qed.

Lemma ltb_nan_r a score : is_nan score = true -> PrimFloat.ltb a score = false.
Proof.
  intros Hn. rewrite ltb_spec. unfold Prim2SF at 2. rewrite Hn.
  unfold SFltb, SFcompare. by destruct (Prim2SF a).
Qed.

(** X5: a risk score that is not a number passes both thresholds, since
    every comparison with a NaN is false: no decision is BLOCKED, and with
    the gate open a proposal is AUTO_APPROVED exactly when its intent kind
    is not in require_human_for. *)
Theorem nan_score_is_never_blocked ps world risk config w :
  valid_refs w ps ->
  is_nan (RiskReport.score risk) = true ->
  exists ds w',
    DefaultGovernanceModule.run ps world risk config w = (Ok ds, w') /\
    forall i r p d,
      ps !! i = Some r -> heap w !! r = Some p -> ds !! i = Some d ->
      Decision.status d <> ProposalStatus.BLOCKED /\
      (GovernanceConfig.gate_open config = true ->
         (Decision.status d = ProposalStatus.AUTO_APPROVED <->
            Proposal.source_intent p ∉ GovernanceConfig.require_human_for config)).
Proof.
  intros Hv Hnan.
  destruct (gov_run_spec world risk config ps w Hv) as (ds & w' & Hrun & Hlen & Hds & _).
  exists ds, w'. split; [done|].
  intros i r p d Hi Hp Hd.
  destruct (Hds i r Hi) as (p' & Hp' & Hd').
  assert (p' = p) as -> by congruence.
  assert (d = decision_of (uuid_src w (i + uuid_n w)) risk config p) as -> by congruence.
  destruct (gate_status_iff p risk config) as (Hb & Ha & _). cbn [Decision.status decision_of].
  unfold float_le, float_lt in *.
  rewrite (leb_nan_r _ _ Hnan) in Hb, Ha. rewrite (ltb_nan_r _ _ Hnan) in Ha.
  split; [intros Heq; apply Hb in Heq; discriminate|].
  intros Hopen. rewrite Ha. intuition congruence.
Qed.
End NanScore.

Lemma nan_score_is_never_blocked_witness :
  valid_refs Demo.world Demo.refs /\ is_nan (RiskReport.score (Demo.risk nan)) = true /\
  Demo.statuses
    (DefaultGovernanceModule.run Demo.refs Demo.state (Demo.risk nan) (Demo.config true)
       Demo.world).1 =
    [ProposalStatus.AUTO_APPROVED; ProposalStatus.REQUIRES_HUMAN;
     ProposalStatus.AUTO_APPROVED] /\
  exists ds w',
    DefaultGovernanceModule.run Demo.refs Demo.state (Demo.risk nan) (Demo.config true)
      Demo.world = (Ok ds, w').
Proof.
  assert (valid_refs Demo.world Demo.refs) as Hv by repeat constructor.
  split; [exact Hv|]. split; [reflexivity|]. split; [vm_compute; reflexivity|].
  destruct (nan_score_is_never_blocked Demo.refs Demo.state (Demo.risk nan)
              (Demo.config true) Demo.world Hv eq_refl) as (ds & w' & Hrun & _).
  by exists ds, w'.
Defined.

Section PolicyAndProposals.
Context {X : Type}.
Implicit Types (w : World X).

(** X6: the default policy never raises and answers the risk level alone:
    CONTINUE for STABLE and ELEVATED, SLOW_ROLL then CONTINUE for HIGH,
    EMERGENCY then SLOW_ROLL then CONTINUE for CRITICAL, highest priority
    first; it draws one uuid per intent, the baseline CONTINUE getting the
    first one, and touches no proposal. *)
Theorem policy_intents_by_level world risk w :
  exists intents w',
    DefaultPolicyModule.run world risk w = (Ok intents, w') /\
    Intent.kind <$> intents =
      match RiskReport.level risk with
      | RiskLevel.STABLE | RiskLevel.ELEVATED => ["CONTINUE"]
      | RiskLevel.HIGH => ["SLOW_ROLL"; "CONTINUE"]
      | RiskLevel.CRITICAL => ["EMERGENCY"; "SLOW_ROLL"; "CONTINUE"]
      end /\
    Intent.priority <$> intents =
      match RiskReport.level risk with
      | RiskLevel.STABLE | RiskLevel.ELEVATED => [10]
      | RiskLevel.HIGH => [50; 10]
      | RiskLevel.CRITICAL => [90; 50; 10]
      end /\
    Intent.id <$> last intents = Some (uuid_src w (uuid_n w)) /\
    uuid_n w' = (length intents + uuid_n w)%nat /\
    heap w' = heap w /\ clock_n w' = clock_n w /\ ext w' = ext w.
Proof.
  unfold DefaultPolicyModule.run. mstep. unfold uuid4.
  cbn [heap uuid_src uuid_n clock clock_n ext].
  destruct (RiskReport.level risk); eexists _, _; (split; [reflexivity|]); by cbn.
Qed.

(** X7: the default proposal module never raises and builds one new
    Proposal per intent, in the order of the intents: the references it
    returns are the next free addresses, the objects that existed before
    are untouched, and the i-th new object has a fresh uuid as id, the tick
    of the world state, the kind of the i-th intent as source intent, the
    status PENDING and empty governance notes. *)
Theorem proposals_follow_intents world risk intents w :
  exists props w',
    DefaultProposalModule.run intents world risk w =
      (Ok (seq (length (heap w)) (length intents)), w') /\
    heap w' = heap w ++ props /\
    length props = length intents /\
    (forall i intent, intents !! i = Some intent ->
       exists p, props !! i = Some p /\
                 fresh_proposal world (uuid_src w (i + uuid_n w)) intent p) /\
    uuid_n w' = (length intents + uuid_n w)%nat /\
    clock_n w' = clock_n w /\ ext w' = ext w.
Proof.
  destruct (proposal_run_spec world risk intents w) as (props & Hrun & Hlen & Hprops).
  eexists props, _. split; [exact Hrun|]. by repeat split.
Qed.

(** X8: governance changes nothing of a proposal but its status and its
    governance notes, leaves the proposals that are not in its list as they
    are, creates no object, draws exactly one uuid per proposal, and reads
    neither the clock nor the modules' own state. *)
Theorem governance_touches_only_status ps world risk config w :
  valid_refs w ps ->
  exists ds w',
    DefaultGovernanceModule.run ps world risk config w = (Ok ds, w') /\
    length (heap w') = length (heap w) /\
    (forall r p, heap w !! r = Some p ->
       exists p', heap w' !! r = Some p' /\
         Proposal.id p' = Proposal.id p /\ Proposal.tick p' = Proposal.tick p /\
         Proposal.source_intent p' = Proposal.source_intent p /\
         Proposal.action p' = Proposal.action p /\
         Proposal.bounds p' = Proposal.bounds p /\
         Proposal.expected_effect p' = Proposal.expected_effect p /\
         (r ∉ ps -> p' = p)) /\
    uuid_n w' = (length ps + uuid_n w)%nat /\
    clock_n w' = clock_n w /\ ext w' = ext w.
Proof.
  intros Hv.
  destruct (gov_run_spec world risk config ps w Hv)
    as (ds & w' & Hrun & _ & _ & Hheap & _ & Hn & _ & Hcn & He).
  exists ds, w'. split; [done|]. split; [|split; [|done]].
  - apply Nat.le_antisymm; apply Nat.le_ngt; intros Hlt.
    + destruct (lookup_lt_is_Some_2 (heap w') (length (heap w))) as [p Hp]; [lia|].
      rewrite Hheap in Hp. rewrite (lookup_ge_None_2 (heap w)) in Hp by lia.
      by destruct (bool_decide _).
    + destruct (lookup_lt_is_Some_2 (heap w) (length (heap w'))) as [p Hp]; [lia|].
      pose proof (Hheap (length (heap w'))) as Hh.
      rewrite (lookup_ge_None_2 (heap w')), Hp in Hh by lia.
      by destruct (bool_decide _).
  - intros r p Hp. rewrite Hheap, Hp.
    destruct (bool_decide (r ∈ ps)) eqn:Hin.
    + exists (governed risk config p). by repeat split; try done;
        intros Hnot; apply bool_decide_eq_true_1 in Hin.
    + exists p. by repeat split.
Qed.
End PolicyAndProposals.

Lemma governance_touches_only_status_witness :
  valid_refs Demo.world Demo.refs /\
  exists ds w',
    DefaultGovernanceModule.run Demo.refs Demo.state (Demo.risk 50) (Demo.config true)
      Demo.world = (Ok ds, w') /\
    length (heap w') = 2%nat /\ uuid_n w' = 3%nat.
Proof.
  assert (valid_refs Demo.world Demo.refs) as Hv by repeat constructor.
  split; [exact Hv|].
  destruct (governance_touches_only_status Demo.refs Demo.state (Demo.risk 50)
              (Demo.config true) Demo.world Hv) as (ds & w' & Hrun & Hlen & _ & Hn & _).
  by exists ds, w'.
Defined.

Section DigestWidth.
Import Hashlib.

Lemma string_length_of_list l : String.length (string_of_list_ascii l) = length l.
Proof. induction l as [|a l IH]; [done|]. simpl. by f_equal. Qed.

Lemma hex_of_length n x : String.length (hex_of n x) = n.
Proof.
  unfold hex_of. by rewrite string_length_of_list, length_map, length_rev, length_seq.
Qed.

Lemma concat_hex_length (ws : list Z) :
  String.length (String.concat EmptyString (map (hex_of 8) ws)) = (8 * length ws)%nat.
Proof.
  induction ws as [|x ws IH]; [done|].
  cbn [map String.concat]. destruct (map (hex_of 8) ws) as [|y ys] eqn:Hm.
  - destruct ws; [|done]. by rewrite hex_of_length.
  - rewrite !string_length_app, hex_of_length, IH. cbn. lia.
Qed.

Lemma round_length st kw : length st = 8%nat -> length (round st kw) = 8%nat.
Proof. do 9 (destruct st as [|? st]; try done). Qed.

Lemma fold_round_length kws : forall st,
  length st = 8%nat -> length (fold_left round kws st) = 8%nat.
Proof.
  induction kws as [|kw kws IH]; intros st Hst; [done|].
  cbn. by apply IH, round_length.
Qed.

Lemma compress_length hs block : length hs = 8%nat -> length (compress hs block) = 8%nat.
Proof.
  intros Hhs. unfold compress.
  rewrite length_map, length_combine, fold_round_length by done. lia.
Qed.

Lemma blocks_length fuel : forall ws hs,
  length hs = 8%nat -> length (blocks fuel ws hs) = 8%nat.
Proof.
  induction fuel as [|fuel IH]; intros ws hs Hhs; [done|].
  cbn. destruct ws; [done|]. by apply IH, compress_length.
Qed.

Lemma sha256_hexdigest_length s : String.length (sha256_hexdigest s) = 64%nat.
Proof.
  unfold sha256_hexdigest, digest_words. by rewrite concat_hex_length, blocks_length.
Qed.
End DigestWidth.

Lemma sha256_length data h : sha256 data = Ok h -> String.length h = 64%nat.
Proof.
  unfold sha256. destruct (dumps _) as [s|x]; [|discriminate].
  intros [= <-]. apply sha256_hexdigest_length.
Qed.

Section LedgerHead.
Context {X : Type}.
Implicit Types (k : t X).

Lemma tip_last prev chain :
  tip prev chain = default prev (AuditEntry.hash <$> last chain).
Proof.
  revert prev. induction chain as [|e chain IH]; intros prev; [done|].
  rewrite tip_cons, IH, (last_cons e). by destruct (last chain).
Qed.

(** X9: the kernel's prev_hash is always the hash of the last entry of its
    chain, and the genesis sentinel while the chain is empty; the sentinel,
    every hash and every prev_hash of the chain are 64 characters wide. *)
Theorem prev_hash_is_chain_head k :
  chained k ->
  prev_hash k = default genesis (AuditEntry.hash <$> last (audit_chain k)) /\
  String.length (prev_hash k) = 64%nat /\
  forall e, e ∈ audit_chain k ->
    String.length (AuditEntry.hash e) = 64%nat /\
    String.length (AuditEntry.prev_hash e) = 64%nat.
Proof.
  intros Hk. destruct (chained_ledger_inv k Hk) as [Hv Hp].
  assert (forall prev chain, String.length prev = 64%nat ->
            linked prev chain ->
            Forall (fun e => String.length (AuditEntry.hash e) = 64%nat /\
                             String.length (AuditEntry.prev_hash e) = 64%nat) chain)
    as Hall.
  { intros prev chain. revert prev.
    induction chain as [|e chain IH]; intros prev Hprev Hvf; [done|].
    destruct Hvf as (Hh & Hph & Hrest).
    assert (String.length (AuditEntry.hash e) = 64%nat) as Hlen
      by (eapply sha256_length; exact Hh).
    constructor; [by rewrite Hph|]. by eapply IH. }
  specialize (Hall genesis (audit_chain k) eq_refl Hv).
  split; [by rewrite Hp, tip_last|]. split.
  - rewrite Hp, tip_last. destruct (last (audit_chain k)) as [e|] eqn:Hl; [|done].
    apply last_Some_elem_of in Hl. rewrite Forall_forall in Hall. by apply Hall.
  - by apply Forall_forall.
Qed.
End LedgerHead.

Lemma prev_hash_is_chain_head_witness :
  let k := (_audit "frame" [("streams", PDict [])] (DemoLedger.kernel, DemoKernel.world)).2.1 in
  chained k /\ String.length (prev_hash k) = 64%nat.
Proof.
  cbv zeta.
  assert (chained (_audit "frame" [("streams", PDict [])]
                     (DemoLedger.kernel, DemoKernel.world)).2.1) as Hk.
  { apply chained_audit. unfold DemoLedger.kernel. apply chained_init. }
  split; [exact Hk|]. by destruct (prev_hash_is_chain_head _ Hk) as (_ & ? & _).
Defined.

Section KeyOrder.
(* the order of sorted(dct.items()) on str keys *)
Lemma ascii_compare_trans_lt a b c :
  Ascii.compare a b = Lt -> Ascii.compare b c = Lt -> Ascii.compare a c = Lt.
Proof. unfold Ascii.compare. rewrite !N.compare_lt_iff. lia. Qed.

Lemma string_compare_trans_lt s1 : forall s2 s3,
  String.compare s1 s2 = Lt -> String.compare s2 s3 = Lt -> String.compare s1 s3 = Lt.
Proof.
  induction s1 as [|a s1 IH]; intros [|b s2] [|c s3]; cbn; try done.
  destruct (Ascii.compare a b) eqn:Hab; [|intros _|done].
  - apply Ascii.compare_eq_iff in Hab as ->.
    destruct (Ascii.compare b c); [apply IH|done|done].
  - destruct (Ascii.compare b c) eqn:Hbc; [|intros _|done].
    + apply Ascii.compare_eq_iff in Hbc as <-. by rewrite Hab.
    + by rewrite (ascii_compare_trans_lt a b c).
Qed.

Lemma string_leb_trans s1 s2 s3 :
  String.leb s1 s2 = true -> String.leb s2 s3 = true -> String.leb s1 s3 = true.
Proof.
  unfold String.leb.
  destruct (String.compare s1 s2) eqn:H12; [intros _|intros _|done].
  - by apply String.compare_eq_iff in H12 as ->.
  - destruct (String.compare s2 s3) eqn:H23; [intros _|intros _|done].
    + apply String.compare_eq_iff in H23 as <-. by rewrite H12.
    + by rewrite (string_compare_trans_lt s1 s2 s3).
Qed.

Definition key_le (a b : string * string) : Prop := String.leb a.1 b.1 = true.

Lemma insert_item_perm kv l : Permutation (insert_item kv l) (kv :: l).
Proof.
  induction l as [|h t IH]; [done|]. cbn.
  destruct (String.leb kv.1 h.1); [done|].
  rewrite IH. apply perm_swap.
Qed.

Lemma sort_items_perm l : Permutation (sort_items l) l.
Proof.
  induction l as [|kv l IH]; [done|]. cbn. by rewrite insert_item_perm, IH.
Qed.

Lemma insert_item_sorted kv l :
  StronglySorted key_le l -> StronglySorted key_le (insert_item kv l).
Proof.
  induction 1 as [|h t Ht IH Hall]; cbn; [repeat constructor|].
  destruct (String.leb kv.1 h.1) eqn:Hle.
  - constructor; [by constructor|]. constructor; [done|].
    eapply Forall_impl; [exact Hall|]. intros x Hx.
    by eapply string_leb_trans.
  - constructor; [done|].
    rewrite insert_item_perm. constructor; [|done]. unfold key_le.
    by destruct (String.leb_total kv.1 h.1) as [Hc|Hc]; [congruence|].
Qed.

Lemma sort_items_sorted l : StronglySorted key_le (sort_items l).
Proof.
  induction l as [|kv l IH]; [constructor|]. by apply insert_item_sorted.
Qed.

Lemma sorted_perm_eq (l1 : list (string * string)) : forall l2,
  StronglySorted key_le l1 -> StronglySorted key_le l2 ->
  Permutation l1 l2 -> NoDup (map fst l1) -> l1 = l2.
Proof.
  induction l1 as [|x l1 IH]; intros l2 H1 H2 Hp Hnd.
  { by apply Permutation_nil in Hp. }
  destruct l2 as [|y l2]; [by apply Permutation_sym, Permutation_nil in Hp|].
  apply StronglySorted_inv in H1 as [H1 Hx]. apply StronglySorted_inv in H2 as [H2 Hy].
  assert (x = y) as <-.
  { destruct (decide (x = y)) as [|Hne]; [done|]. exfalso.
    assert (y ∈ l1) as Hyl.
    { assert (y ∈ x :: l1) as Hin by (rewrite Hp; left).
      apply elem_of_cons in Hin as [?|?]; [congruence|done]. }
    assert (x ∈ l2) as Hxl.
    { assert (x ∈ y :: l2) as Hin by (rewrite <- Hp; left).
      apply elem_of_cons in Hin as [?|?]; [congruence|done]. }
    rewrite Forall_forall in Hx, Hy.
    pose proof (String.leb_antisym _ _ (Hx _ Hyl) (Hy _ Hxl)) as Hk.
    apply NoDup_cons in Hnd as [Hnot _]. apply Hnot.
    cbn. rewrite Hk. apply list_elem_of_fmap. by exists y. }
  f_equal. apply IH; [done|done|by eapply Permutation_cons_inv|].
  by apply NoDup_cons in Hnd as [_ ?].
Qed.

Lemma sort_items_order_free l1 l2 :
  Permutation l1 l2 -> NoDup (map fst l1) -> sort_items l1 = sort_items l2.
Proof.
  intros Hp Hnd. apply sorted_perm_eq; try apply sort_items_sorted.
  - by rewrite !sort_items_perm.
  - assert (Permutation (map fst (sort_items l1)) (map fst l1)) as Hq
      by apply Permutation_map, sort_items_perm.
    by rewrite Hq.
Qed.

Lemma text_dict_ext (items items' : pydict) :
  map (fun kv => (fst kv, text (snd kv))) items =
  map (fun kv => (fst kv, text (snd kv))) items' ->
  text (PDict items) = text (PDict items').
Proof. intros H. cbn [text]. by rewrite H. Qed.

Lemma text_dict_order_free (items items' : pydict) :
  Permutation items items' -> NoDup (map fst items) ->
  text (PDict items) = text (PDict items').
Proof.
  intros Hp Hnd. cbn [text].
  rewrite (sort_items_order_free
             (map (fun kv => (kv.1, text kv.2)) items)
             (map (fun kv => (kv.1, text kv.2)) items')); [done| |].
  - by apply Permutation_map.
  - by rewrite map_map.
Qed.

Lemma text_raw_order_free (data data' : pydict) entry_id tick ts kind prev :
  text (PDict data) = text (PDict data') ->
  text (PDict (raw_of entry_id tick ts kind data prev)) =
  text (PDict (raw_of entry_id tick ts kind data' prev)).
Proof.
  intros Hd. apply text_dict_ext. unfold raw_of. cbn [map fst snd].
  by rewrite Hd.
Qed.

Lemma encodable_perm (data data' : pydict) :
  Permutation data data' -> encodable (PDict data) = encodable (PDict data').
Proof.
  cbn [encodable]. induction 1 as [|kv l l' _ IH|kv kv' l|l l' l'' _ IH1 _ IH2]; cbn.
  - done.
  - by rewrite IH.
  - by rewrite !andb_assoc, (andb_comm (encodable kv'.2)).
  - by rewrite IH1.
Qed.
End KeyOrder.

(** X10: the hash does not depend on the order in which a dict holds its
    keys: two dicts with the same items in another order have the same
    sha256, the same hash or the same ValueError, and an audit record hashes
    the same whatever the order of the keys of its payload. *)
Theorem sha256_ignores_key_order (data data' : pydict) :
  Permutation data data' -> NoDup (map fst data) ->
  sha256 data = sha256 data' /\
  forall entry_id tick ts kind prev,
    sha256 (raw_of entry_id tick ts kind data prev) =
    sha256 (raw_of entry_id tick ts kind data' prev).
Proof.
  intros Hp Hnd. pose proof (text_dict_order_free data data' Hp Hnd) as Hd.
  pose proof (encodable_perm data data' Hp) as He.
  split.
  - by rewrite !sha256_run, !digest_eq, He, Hd.
  - intros entry_id tick ts kind prev.
    rewrite !sha256_run, !digest_eq, !encodable_raw, He.
    by rewrite (text_raw_order_free data data' entry_id tick ts kind prev Hd).
Qed.

Lemma sha256_ignores_key_order_witness :
  let data := [("score", PFloat 30); ("level", PStr "ELEVATED")] in
  let data' := [("level", PStr "ELEVATED"); ("score", PFloat 30)] in
  Permutation data data' /\ NoDup (map fst data) /\ sha256 data = sha256 data'.
Proof.
  cbv zeta.
  assert (Permutation [("score", PFloat 30); ("level", PStr "ELEVATED")]
            [("level", PStr "ELEVATED"); ("score", PFloat 30)]) as Hp by apply perm_swap.
  assert (NoDup (map fst [("score", PFloat 30); ("level", PStr "ELEVATED")])) as Hnd.
  { apply NoDup_cons. split; [|apply NoDup_singleton].
    intros Hin. apply list_elem_of_singleton in Hin. discriminate Hin. }
  split; [exact Hp|]. split; [exact Hnd|].
  exact (proj1 (sha256_ignores_key_order _ _ Hp Hnd)).
Defined.

Section StepState.
Context {X : Type}.
Implicit Types (k : t X) (w : World X).

Lemma step_ok_state k w snap k' w' :
  step (k, w) = (Ok snap, (k', w')) ->
  tick_id k' = tick_id k + 1 /\
  length (audit_chain k') = (length (audit_chain k) + 6)%nat /\
  prev_world k' = Some (TickResult.world snap) /\
  sensor k' = sensor k /\ perception k' = perception k /\
  risk_module k' = risk_module k /\ policy_module k' = policy_module k /\
  proposal_module k' = proposal_module k /\
  governance_module k' = governance_module k /\
  actuation_module k' = actuation_module k /\ gov_cfg k' = gov_cfg k.
Proof.
  intros Hstep. apply step_ok_inv in Hstep as (s & w7 & _ & -> & -> & ->).
  destruct (committed_shape k w7 s) as (e1 & e2 & e3 & e4 & e5 & e6 & -> & _).
  cbn [tick_id audit_chain prev_world sensor perception risk_module policy_module
       proposal_module governance_module actuation_module gov_cfg set_state
       TickResult.world].
  rewrite length_app. by repeat split.
Qed.

(** X12: step() never rewires the kernel: the seven modules and the
    governance configuration are the same objects after the call, whether
    it returned or raised; the previous world state is the world of the
    snapshot after a call that returned, and is left as it was by a call
    that raised. *)
Theorem step_keeps_wiring k w :
  let k' := (step (k, w)).2.1 in
  sensor k' = sensor k /\ perception k' = perception k /\
  risk_module k' = risk_module k /\ policy_module k' = policy_module k /\
  proposal_module k' = proposal_module k /\
  governance_module k' = governance_module k /\
  actuation_module k' = actuation_module k /\ gov_cfg k' = gov_cfg k /\
  prev_world k' =
    match (step (k, w)).1 with
    | Ok snap => Some (TickResult.world snap)
    | Raise _ => prev_world k
    end.
Proof.
  cbv zeta. rewrite step_eq.
  destruct (stages (begun k) w) as [[s|e] w7]; [|by repeat split].
  pose proof (record_frame (summaries s) (begun k) w7) as Hf. cbv zeta in Hf.
  destruct (record (summaries s) (begun k, w7)) as [[es|x] [k6 w6]];
    cbn [fst snd TickResult.world] in *;
    destruct Hf as (_ & Hpw & H1 & H2 & H3 & H4 & H5 & H6 & H7 & H8);
    cbn [sensor perception risk_module policy_module proposal_module
         governance_module actuation_module gov_cfg prev_world set_prev_world
         set_state];
    rewrite ?H1, ?H2, ?H3, ?H4, ?H5, ?H6, ?H7, ?H8, ?Hpw; by repeat split.
Qed.
End StepState.

Section MainLoop.
Implicit Types (k : t Rng) (w : World Rng).

Lemma by_default_step k w snap k' w' :
  by_default k -> step (k, w) = (Ok snap, (k', w')) -> by_default k'.
Proof.
  intros (H1 & H2 & H3 & H4 & H5 & H6 & H7) Hstep.
  apply step_ok_state in Hstep
    as (_ & _ & _ & E1 & E2 & E3 & E4 & E5 & E6 & E7 & _).
  unfold by_default. rewrite E1, E2, E3, E4, E5, E6, E7. by repeat split.
Qed.

Lemma rounds_succ n k w :
  Main.rounds (S n) (k, w) =
  match step (k, w) with
  | (Ok tr, s1) =>
      match Main.rounds n s1 with
      | (Ok trs, s2) => (Ok (tr :: trs), s2)
      | (Raise e, s2) => (Raise e, s2)
      end
  | (Raise e, s1) => (Raise e, s1)
  end.
Proof. reflexivity. Qed.

(** X11: the loop of __main__ goes on under the default wiring as long as
    the tick ids have at most 4300 decimal digits: its first n rounds all
    return when the counter plus n stays below that limit; the snapshots
    carry the tick ids that follow the counter, one by one; after them the
    counter has grown by n and the audit chain by 6 n entries, which is
    what the two totals printed at the end report, and the chain is still
    one that __init__ and _audit built. *)
Theorem demo_loop_totals n : forall k w,
  by_default k -> chained k ->
  - 10 ^ PyFloat.max_str_digits < tick_id k + 1 ->
  tick_id k + Z.of_nat n < 10 ^ PyFloat.max_str_digits ->
  exists trs k' w',
    Main.rounds n (k, w) = (Ok trs, (k', w')) /\
    TickResult.tick <$> trs = (fun i => tick_id k + 1 + Z.of_nat i) <$> seq 0 n /\
    tick_id k' = tick_id k + Z.of_nat n /\
    length (audit_chain k') = (length (audit_chain k) + 6 * n)%nat /\
    by_default k' /\ chained k'.
Proof.
  set (L := 10 ^ PyFloat.max_str_digits).
  induction n as [|n IH]; intros k w Hd Hc Hlo Hhi.
  { exists [], k, w. split; [done|]. split; [done|]. split; [cbn; lia|].
    split; [lia|done]. }
  assert (encodable (PInt (tick_id k + 1)) = true) as Hfit.
  { apply encodable_int. fold L. lia. }
  destruct (default_step_ok k w Hd Hfit) as (snap & k1 & w1 & Hstep).
  pose proof (by_default_step _ _ _ _ _ Hd Hstep) as Hd1.
  pose proof (chained_step k w Hc) as Hc1. rewrite Hstep in Hc1. cbn [fst snd] in Hc1.
  pose proof (step_ok_tick _ _ _ _ _ Hstep) as Ht.
  destruct (step_ok_state _ _ _ _ _ Hstep) as (Hid & Hlen & _).
  destruct (IH k1 w1 Hd1 Hc1) as (trs & k' & w' & Hrun & Hticks & Hid' & Hlen' & Hd' & Hc');
    [lia|lia|].
  exists (snap :: trs), k', w'. split; [|split; [|split; [|split]]]; try done.
  - by rewrite rounds_succ, Hstep, Hrun.
  - cbn [fmap list_fmap seq]. rewrite Ht, Z.add_0_r. f_equal.
    change (list_fmap _ _ ?f ?l) with (f <$> l) in *.
    rewrite Hticks, <- (fmap_S_seq 0), <- list_fmap_compose.
    apply list_fmap_ext. intros _ i _. cbn. rewrite Hid. lia.
  - lia.
  - lia.
Qed.
End MainLoop.

Lemma demo_loop_totals_witness :
  by_default Main.kernel /\ chained Main.kernel /\
  - 10 ^ PyFloat.max_str_digits < tick_id Main.kernel + 1 /\
  tick_id Main.kernel + Z.of_nat 3 < 10 ^ PyFloat.max_str_digits /\
  exists trs k' w',
    Main.rounds 3 (Main.kernel, DemoKernel.world) = (Ok trs, (k', w')) /\
    TickResult.tick <$> trs = [1; 2; 3] /\
    tick_id k' = 3 /\ length (audit_chain k') = 18%nat.
Proof.
  assert (by_default Main.kernel) as Hd by apply by_default_wiring.
  assert (chained Main.kernel) as Hc by (unfold Main.kernel, default_wiring; constructor).
  assert (- 10 ^ PyFloat.max_str_digits < tick_id Main.kernel + 1) as Hlo
    by (rewrite <- int_limit_eq; reflexivity).
  assert (tick_id Main.kernel + Z.of_nat 3 < 10 ^ PyFloat.max_str_digits) as Hhi
    by (rewrite <- int_limit_eq; reflexivity).
  split; [exact Hd|]. split; [exact Hc|]. split; [exact Hlo|]. split; [exact Hhi|].
  destruct (demo_loop_totals 3 Main.kernel DemoKernel.world Hd Hc Hlo Hhi)
    as (trs & k' & w' & Hrun & Hticks & Hid & Hlen & _).
  exists trs, k', w'. split; [exact Hrun|]. split; [exact Hticks|].
  split; [exact Hid|exact Hlen].
Defined.

Section OlderProposals.
Implicit Types (k : t Rng) (w : World Rng).

Lemma gov_post_length {X} risk config ps (w : World X) ds (w' : World X) :
  gov_post risk config ps w ds w' -> length (heap w') = length (heap w).
Proof.
  intros (_ & _ & Hheap & _).
  apply Nat.le_antisymm; apply Nat.le_ngt; intros Hlt.
  - destruct (lookup_lt_is_Some_2 (heap w') (length (heap w))) as [p Hp]; [lia|].
    rewrite Hheap in Hp. rewrite (lookup_ge_None_2 (heap w)) in Hp by lia.
    by destruct (bool_decide _).
  - destruct (lookup_lt_is_Some_2 (heap w) (length (heap w'))) as [p Hp]; [lia|].
    pose proof (Hheap (length (heap w'))) as Hh.
    rewrite (lookup_ge_None_2 (heap w')), Hp in Hh by lia.
    by destruct (bool_decide _).
Qed.

(** X13: a tick under the default wiring writes to no Proposal but its
    own: the proposals of the snapshot are new objects, one per intent, at
    the addresses that follow the ones in use, every object that existed
    before the call is what it was after it, so the snapshots of earlier
    ticks do not change under their holder, and each new object ends with
    the status and the comment of its decision. *)
Theorem tick_leaves_older_proposals k w snap k' w' :
  by_default k ->
  step (k, w) = (Ok snap, (k', w')) ->
  TickResult.proposals snap =
    seq (length (heap w)) (length (TickResult.intents snap)) /\
  length (heap w') = (length (heap w) + length (TickResult.intents snap))%nat /\
  (forall r p, heap w !! r = Some p -> heap w' !! r = Some p) /\
  (forall i r d, TickResult.proposals snap !! i = Some r ->
     TickResult.decisions snap !! i = Some d ->
     exists p, heap w' !! r = Some p /\
       Proposal.id p = Decision.proposal_id d /\
       Proposal.status p = Decision.status d /\
       Proposal.governance_notes p = Decision.comment d).
Proof.
  intros (Hs & Hp & Hr & Hpol & Hprop & Hgov & Hact) Hstep.
  apply step_ok_inv in Hstep as (s & w7 & Hst & -> & -> & ->).
  apply stages_ok in Hst as (w1 & w2 & w3 & w4 & w5 & w6 & H1 & H2 & H3 & H4 & H5 & H6 & H7).
  destruct s as [frame world risk intents ps ds cmds].
  cbn [sensor perception risk_module policy_module proposal_module governance_module
       actuation_module begun set_tick_id set_state gov_cfg tick_id prev_world
       Tick.frame Tick.world Tick.risk Tick.intents Tick.proposals Tick.decisions
       Tick.actuation] in *.
  rewrite Hs in H1. rewrite Hp in H2. rewrite Hr in H3. rewrite Hpol in H4.
  rewrite Hprop in H5. rewrite Hgov in H6. rewrite Hact in H7.
  cbn [TickResult.proposals TickResult.intents TickResult.decisions audited heap].
  destruct (sensor_read_spec (tick_id k + 1) (prev_world k) w)
    as (a & b & c & w1' & H1' & Hh1).
  rewrite H1 in H1'. injection H1' as _ <-.
  apply perception_run_inv in H2 as (_ & _ & ->).
  apply risk_run_inv in H3 as (_ & _ & ->).
  destruct (policy_run_spec world risk w1) as (intents' & w4' & H4' & Hh4 & _).
  rewrite H4 in H4'. injection H4' as <- <-.
  destruct (proposal_run_spec world risk intents w4) as (props & H5' & Hlen & Hfresh).
  rewrite H5 in H5'. injection H5' as -> ->.
  set (ps := seq (length (heap w4)) (length intents)) in *.
  set (w5 := mkWorld (heap w4 ++ props) _ _ _ _ _) in *.
  assert (valid_refs w5 ps) as Hv.
  { apply Forall_forall. intros r' Hr'. unfold ps in Hr'. apply elem_of_seq in Hr'.
    cbn. rewrite length_app. lia. }
  destruct (gov_run_spec world risk (gov_cfg k) ps w5 Hv) as (ds' & w6' & H6' & Hpost).
  rewrite H6 in H6'. injection H6' as <- <-.
  destruct (act_run_spec world ds w6) as (cmds' & H7' & _).
  rewrite H7 in H7'. injection H7' as _ ->. cbn [heap].
  pose proof (gov_post_length _ _ _ _ _ _ Hpost) as Hl6.
  destruct Hpost as (Hlds & Hds & Hheap & _).
  assert (length (heap w4) = length (heap w)) as Hl4 by congruence.
  split; [unfold ps; by rewrite Hl4|]. split; [|split].
  - rewrite Hl6. cbn. rewrite length_app. lia.
  - intros r p Hrp. rewrite Hheap.
    assert (r < length (heap w))%nat as Hlt by by eapply lookup_lt_Some.
    rewrite bool_decide_eq_false_2.
    2:{ unfold ps. rewrite elem_of_seq. lia. }
    cbn. rewrite lookup_app_l by lia. by rewrite Hh4, Hh1.
  - intros i r d Hi Hd.
    destruct (Hds i r Hi) as (p & Hp5 & Hd'). rewrite Hd in Hd'. injection Hd' as ->.
    exists (governed risk (gov_cfg k) p). split; [|done].
    rewrite Hheap, bool_decide_eq_true_2 by by eapply list_elem_of_lookup_2.
    by rewrite Hp5.
Qed.
End OlderProposals.

Lemma tick_leaves_older_proposals_witness :
  let w := with_heap [Demo.proposal "p-0" "CONTINUE"] DemoKernel.world in
  by_default Main.kernel /\
  exists snap k' w',
    step (Main.kernel, w) = (Ok snap, (k', w')) /\
    heap w' !! 0%nat = Some (Demo.proposal "p-0" "CONTINUE") /\
    TickResult.proposals snap = seq 1 (length (TickResult.intents snap)).
Proof.
  cbv zeta. set (w := with_heap _ _).
  assert (by_default Main.kernel) as Hd by apply by_default_wiring.
  split; [exact Hd|].
  assert (is_ok (step (Main.kernel, w)).1 = true) as Hok by (vm_compute; reflexivity).
  destruct (ok_inv _ Hok) as (snap & [k' w'] & Hstep).
  exists snap, k', w'. split; [exact Hstep|].
  destruct (tick_leaves_older_proposals _ _ _ _ _ Hd Hstep) as (Hps & _ & Hold & _).
  split; [by apply Hold|exact Hps].
Defined.

Section PerceptionEdges.
Context {X : Type}.
Implicit Types (w : World X).




(** X15: a frame whose ops stream is not a dict stops the tick in the
    perception stage: step() raises AttributeError, nothing is audited,
    and the tick counter has advanced all the same. *)
Theorem malformed_ops_fails_tick (k : t X) w frame w1 :
  perception k = DefaultPerceptionModule.run ->
  sensor k (tick_id k + 1) (prev_world k) w = (Ok frame, w1) ->
  has_no_get (dict_get "ops" (SensorFrame.streams frame) (PDict [])) = true ->
  exists k',
    step (k, w) = (Raise AttributeError, (k', w1)) /\
    audit_chain k' = audit_chain k /\ prev_hash k' = prev_hash k /\
    prev_world k' = prev_world k /\ tick_id k' = tick_id k + 1.
Proof.
  intros Hp Hs Hops. exists (begun k). split; [|done].
  apply stage_fails_raise.
  eapply fails_perception; [exact Hs|].
  cbn [perception begun set_tick_id set_state prev_world]. rewrite Hp.
  unfold DefaultPerceptionModule.run. mstep.
  by destruct (dict_get "ops" _ _).
Qed.
End PerceptionEdges.

Section AuditFailure.
Context {X : Type}.
Implicit Types (k : t X) (w : World X).

(** X17: when json.dumps cannot take the record of the frame, the tick id
    or an int of the sensor streams having more than 4300 digits, the tick
    fails as a whole although all its stages returned: step() raises
    ValueError out of the first audit call, no entry is appended, the
    previous hash and the previous world state are kept, and the counter
    has advanced. *)
Theorem unencodable_frame_fails_tick k w frame w1 :
  sensor k (tick_id k + 1) (prev_world k) w = (Ok frame, w1) ->
  is_ok (stages (begun k) w).1 = true ->
  encodable (PInt (tick_id k + 1)) && encodable (PDict (SensorFrame.streams frame))
    = false ->
  exists k' w',
    step (k, w) = (Raise ValueError, (k', w')) /\
    audit_chain k' = audit_chain k /\ prev_hash k' = prev_hash k /\
    prev_world k' = prev_world k /\ tick_id k' = tick_id k + 1.
Proof.
  intros Hs Hok Henc. destruct (ok_inv _ Hok) as (s & w7 & Hst).
  assert (Tick.frame s = frame) as Hf.
  { apply stages_ok in Hst as (w1' & _ & _ & _ & _ & _ & H1 & _).
    cbn [sensor begun set_tick_id set_state tick_id prev_world] in H1. congruence. }
  exists (begun k), (audited 1 w7). split; [|done].
  rewrite step_eq, Hst. unfold summaries. rewrite record_first_raises; [done|].
  cbn [snd encodable forallb tick_id begun set_tick_id set_state]. rewrite Hf.
  rewrite andb_true_r. exact Henc.
Qed.
End AuditFailure.


Lemma malformed_ops_fails_tick_witness :
  exists k' w1,
    step (DemoFaulty.kernel, DemoKernel.world) = (Raise AttributeError, (k', w1)) /\
    audit_chain k' = [] /\ tick_id k' = 1.
Proof.
  destruct (malformed_ops_fails_tick DemoFaulty.kernel DemoKernel.world
              (SensorFrame.mk 1 (clock DemoKernel.world 0)
                 [("ops", PList [PFloat 0.5; PFloat 0.25])])
              (mkWorld [] (uuid_src DemoKernel.world) 0 (clock DemoKernel.world) 1
                 (ext DemoKernel.world)))
    as (k' & Hstep & Hchain & _ & _ & Hid); [reflexivity|reflexivity|reflexivity|].
  eexists k', _. split; [exact Hstep|]. split; [exact Hchain|exact Hid].
Defined.

Lemma unencodable_frame_fails_tick_witness :
  exists k' w',
    step (DemoFaulty.serial_kernel, DemoKernel.world) = (Raise ValueError, (k', w')) /\
    audit_chain k' = [] /\ prev_world k' = None /\ tick_id k' = 1.
Proof.
  destruct (unencodable_frame_fails_tick DemoFaulty.serial_kernel DemoKernel.world
              (SensorFrame.mk 1 (clock DemoKernel.world 0)
                 [("ops", PDict [("system_load", PFloat 0.5)]);
                  ("serial", PInt PyFloat.int_limit)])
              (mkWorld [] (uuid_src DemoKernel.world) 0 (clock DemoKernel.world) 1
                 (ext DemoKernel.world)))
    as (k' & w' & Hstep & Hchain & _ & Hpw & Hid);
    [reflexivity|vm_compute; reflexivity|vm_compute; reflexivity|].
  exists k', w'. split; [exact Hstep|]. split; [exact Hchain|]. split; [exact Hpw|exact Hid].
Defined.

Section NanHealth.
Context {X : Type}.
Implicit Types (w : World X).

(* a NaN operand makes the result of -, * and + a NaN *)
Lemma is_nan_Prim2SF a : is_nan a = true <-> Prim2SF a = S754_nan.
Proof.
  unfold Prim2SF. destruct (is_nan a); [done|].
  split; [discriminate|].
  repeat match goal with
         | |- context [match ?t with _ => _ end] => destruct t
         end; discriminate.
Qed.

Lemma sub_nan_r a b : is_nan b = true -> is_nan (a - b) = true.
Proof.
  rewrite !is_nan_Prim2SF, sub_spec. intros ->.
  unfold SF64sub, SFsub. by destruct (Prim2SF a).
Qed.

Lemma mul_nan_r a b : is_nan b = true -> is_nan (a * b) = true.
Proof.
  rewrite !is_nan_Prim2SF, mul_spec. intros ->.
  unfold SF64mul, SFmul. by destruct (Prim2SF a).
Qed.

Lemma add_nan_r a b : is_nan b = true -> is_nan (a + b) = true.
Proof.
  rewrite !is_nan_Prim2SF, add_spec. intros ->.
  unfold SF64add, SFadd. by destruct (Prim2SF a).
Qed.

Lemma add_nan_l a b : is_nan a = true -> is_nan (a + b) = true.
Proof.
  rewrite !is_nan_Prim2SF, add_spec. intros ->.
  unfold SF64add, SFadd. by destruct (Prim2SF b).
Qed.

Lemma ltb_nan_l a b : is_nan a = true -> PrimFloat.ltb a b = false.
Proof.
  rewrite is_nan_Prim2SF, ltb_spec. intros ->. reflexivity.
Qed.

(** X16: a health value that is not a number ends as the highest risk,
    not as a NaN score: when the compute, environment or comms health is
    a NaN, the blend is a NaN, min(100.0, blend) is 100.0, and the default
    risk module reports the score 100.0, the level CRITICAL and the
    clarity 40.0. *)
Theorem nan_health_is_critical world x y c w :
  dict_get "compute" (WorldState.health world) (PFloat 0.8) = PFloat x ->
  dict_get "environment" (WorldState.health world) (PFloat 0.8) = PFloat y ->
  dict_get "comms" (WorldState.health world) (PFloat 0.8) = PFloat c ->
  is_nan x = true \/ is_nan y = true \/ is_nan c = true ->
  exists r,
    DefaultRiskModule.run world w = (Ok r, w) /\
    RiskReport.score r = 100%float /\
    RiskReport.level r = RiskLevel.CRITICAL /\
    RiskReport.clarity r = 40%float /\
    RiskReport.tick r = WorldState.tick world.
Proof.
  intros Hx Hy Hc Hnan. unfold DefaultRiskModule.run. rewrite Hx, Hy, Hc.
  cbn [float_sub]. mstep. eexists. split; [reflexivity|].
  cbn [RiskReport.score RiskReport.level RiskReport.clarity RiskReport.tick].
  set (blend := (100 * _)%float).
  assert (is_nan blend = true) as Hb.
  { unfold blend. apply mul_nan_r.
    destruct Hnan as [H|[H|H]].
    - by apply add_nan_l, add_nan_l, mul_nan_r, sub_nan_r.
    - by apply add_nan_l, add_nan_r, mul_nan_r, sub_nan_r.
    - by apply add_nan_r, mul_nan_r, sub_nan_r. }
  assert (py_min 100 blend = 100%float) as ->.
  { unfold py_min. by rewrite ltb_nan_l. }
  by repeat split.
Qed.
End NanHealth.

Lemma nan_health_is_critical_witness :
  let world := WorldState.mk 3 1700000000 []
                 [("compute", PFloat 0.5); ("environment", PFloat 0.5);
                  ("comms", PFloat nan)] in
  exists r,
    DefaultRiskModule.run world Demo.world = (Ok r, Demo.world) /\
    RiskReport.score r = 100%float /\ RiskReport.level r = RiskLevel.CRITICAL.
Proof.
  cbv zeta.
  destruct (nan_health_is_critical
              (WorldState.mk 3 1700000000 []
                 [("compute", PFloat 0.5); ("environment", PFloat 0.5);
                  ("comms", PFloat nan)]) 0.5 0.5 nan Demo.world)
    as (r & Hrun & Hs & Hl & _); [reflexivity|reflexivity|reflexivity| |].
  - right. right. reflexivity.
  - by exists r.
Defined.
